(** * yagalog: a leveled logger with a console sink and a file sink

    Shallow embedding of [logger.go].  Go strings are byte strings and are
    modelled by [string] (one [ascii] per byte); [LogLevel] is a Go [int] and
    is modelled by [Z]; the process environment the logger talks to (standard
    output, the file system, open file objects, the clock, the call stack,
    process exit) is an explicit [World] threaded through every call. *)

From Stdlib Require Import ZArith NArith Ascii String DecimalString.
From stdpp Require Import gmap strings list fin_maps.

Local Open Scope Z_scope.

(** ** Byte strings *)

Module GoString.

Definition LF : ascii := "010"%char.
Definition DQUOTE : ascii := "034"%char.
Definition BACKSLASH : ascii := "092"%char.
Definition ESC : ascii := "027"%char.

Definition byte (b : ascii) : string := String b "".

(** [len(s)] *)
Definition len (s : string) : Z := Z.of_nat (String.length s).

(** [s[:n]] and [s[n:]] for [n] within bounds. *)
Fixpoint take (n : nat) (s : string) : string :=
  match n, s with
  | S n', String c s' => String c (take n' s')
  | _, _ => ""
  end.

Fixpoint drop (n : nat) (s : string) : string :=
  match n, s with
  | S n', String _ s' => drop n' s'
  | _, _ => s
  end.

(** The slice expression [s[lo:hi]]; [None] is the run-time panic
    "slice bounds out of range". *)
Definition slice (s : string) (lo hi : Z) : option string :=
  if (0 <=? lo) && (lo <=? hi) && (hi <=? len s)
  then Some (take (Z.to_nat (hi - lo)) (drop (Z.to_nat lo) s))
  else None.

(** Number of occurrences of a byte. *)
Fixpoint count (b : ascii) (s : string) : nat :=
  match s with
  | "" => 0%nat
  | String c s' => ((if Ascii.eqb c b then 1 else 0) + count b s')%nat
  end.

(** [strconv.Itoa] *)
Definition Itoa (n : Z) : string := NilZero.string_of_int (Z.to_int n).

End GoString.
Import GoString.

(** ** encoding/json: string escaping with [SetEscapeHTML(false)] *)

Module Json.

Local Open Scope N_scope.

Definition RuneError : N := 0xFFFD.
Definition RuneSelf : N := 0x80.
Definition locb : N := 0x80.
Definition hicb : N := 0xBF.

(** [utf8.first] with [utf8.acceptRanges]: for a lead byte, the length of
    the sequence and the accepted range of its second byte; [None] for the
    bytes that start no sequence. *)
Definition first (s0 : N) : option (nat * N * N) :=
  if s0 <? 0xC2 then None
  else if s0 <? 0xE0 then Some (2%nat, locb, hicb)
  else if s0 =? 0xE0 then Some (3%nat, 0xA0, hicb)
  else if s0 =? 0xED then Some (3%nat, locb, 0x9F)
  else if s0 <? 0xF0 then Some (3%nat, locb, hicb)
  else if s0 =? 0xF0 then Some (4%nat, 0x90, hicb)
  else if s0 <? 0xF4 then Some (4%nat, locb, hicb)
  else if s0 =? 0xF4 then Some (4%nat, locb, 0x8F)
  else None.

Definition cont (s : N) : bool := (locb <=? s) && (s <=? hicb).

(** [utf8.DecodeRuneInString]: the rune at the head of [s] and its width in
    bytes; an invalid or truncated sequence gives [(RuneError, 1)].  The
    decoder looks at no more than four bytes, so the window
    [src[i:i+UTFMax]] the encoder passes is the whole remaining input
    here. *)
Definition DecodeRuneInString (s : string) : N * nat :=
  match s with
  | "" => (RuneError, 0%nat)
  | String c0 t0 =>
    let s0 := N_of_ascii c0 in
    if s0 <? RuneSelf then (s0, 1%nat) else
    match first s0 with
    | None => (RuneError, 1%nat)
    | Some (sz, lo, hi) =>
      match t0 with
      | "" => (RuneError, 1%nat)
      | String c1 t1 =>
        let s1 := N_of_ascii c1 in
        if (s1 <? lo) || (hi <? s1) then (RuneError, 1%nat) else
        if (sz <=? 2)%nat then
          (N.lor (N.shiftl (N.land s0 0x1F) 6) (N.land s1 0x3F), 2%nat)
        else
        match t1 with
        | "" => (RuneError, 1%nat)
        | String c2 t2 =>
          let s2 := N_of_ascii c2 in
          if negb (cont s2) then (RuneError, 1%nat) else
          if (sz <=? 3)%nat then
            (N.lor (N.lor (N.shiftl (N.land s0 0x0F) 12)
                          (N.shiftl (N.land s1 0x3F) 6))
                   (N.land s2 0x3F), 3%nat)
          else
          match t2 with
          | "" => (RuneError, 1%nat)
          | String c3 _ =>
            let s3 := N_of_ascii c3 in
            if negb (cont s3) then (RuneError, 1%nat) else
            (N.lor (N.lor (N.lor (N.shiftl (N.land s0 0x07) 18)
                                 (N.shiftl (N.land s1 0x3F) 12))
                          (N.shiftl (N.land s2 0x3F) 6))
                   (N.land s3 0x3F), 4%nat)
          end
        end
      end
    end
  end.

(** [safeSet]: the ASCII bytes copied as they are when HTML escaping is
    off, that is all of 0x20..0x7f except the double quote and the
    backslash. *)
Definition safeSet (b : ascii) : bool :=
  let n := N_of_ascii b in
  (0x20 <=? n) && (n <? 0x80)
  && negb (Ascii.eqb b DQUOTE) && negb (Ascii.eqb b BACKSLASH).

Definition hex (n : N) : ascii :=
  match String.get (N.to_nat n) "0123456789abcdef" with
  | Some c => c
  | None => "0"%char
  end.

(** The [switch b] of [appendString] for an ASCII byte outside [safeSet]. *)
Definition escapeByte (b : ascii) : string :=
  let n := N_of_ascii b in
  if Ascii.eqb b BACKSLASH || Ascii.eqb b DQUOTE then String BACKSLASH (byte b)
  else if n =? 8 then String BACKSLASH "b"
  else if n =? 12 then String BACKSLASH "f"
  else if n =? 10 then String BACKSLASH "n"
  else if n =? 13 then String BACKSLASH "r"
  else if n =? 9 then String BACKSLASH "t"
  else String BACKSLASH "u00" +:+ byte (hex (N.shiftr n 4)) +:+ byte (hex (N.land n 0xF)).

(** The loop of [appendString(dst, src, false)]; one unit of [fuel] per
    iteration, and every iteration consumes at least one byte. *)
Fixpoint appendString_loop (fuel : nat) (src : string) : string :=
  match fuel, src with
  | S fuel', String b rest =>
    if N_of_ascii b <? RuneSelf then
      (if safeSet b then byte b else escapeByte b) +:+ appendString_loop fuel' rest
    else
      let '(c, size) := DecodeRuneInString src in
      if (c =? RuneError) && (size =? 1)%nat then
        String BACKSLASH "ufffd" +:+ appendString_loop fuel' rest
      else if (c =? 0x2028) || (c =? 0x2029) then
        String BACKSLASH "u202" +:+ byte (hex (N.land c 0xF))
          +:+ appendString_loop fuel' (drop size src)
      else
        take size src +:+ appendString_loop fuel' (drop size src)
  | _, _ => ""
  end.

(** What [appendString] puts between the quotes. *)
Definition escape (src : string) : string :=
  appendString_loop (String.length src) src.

Definition quoted (s : string) : string := byte DQUOTE +:+ s +:+ byte DQUOTE.

Definition appendString (src : string) : string := quoted (escape src).

(** Every byte is outside ASCII. *)
Fixpoint all_high (s : string) : bool :=
  match s with
  | "" => true
  | String c s' => (RuneSelf <=? N_of_ascii c) && all_high s'
  end.

(** Insertion of a key/value pair into a list sorted by key: the encoder
    writes a map's entries in the byte-wise order of their keys. *)
Fixpoint insertKey (kv : string * string) (l : list (string * string))
  : list (string * string) :=
  match l with
  | [] => [kv]
  | kv' :: l' =>
    if String.leb (fst kv) (fst kv') then kv :: l else kv' :: insertKey kv l'
  end.

Definition sortKeys (l : list (string * string)) : list (string * string) :=
  foldr insertKey [] l.

Fixpoint members (l : list (string * string)) : string :=
  match l with
  | [] => ""
  | [(k, v)] => appendString k +:+ ":" +:+ appendString v
  | (k, v) :: l' => appendString k +:+ ":" +:+ appendString v +:+ "," +:+ members l'
  end.

(** [json.NewEncoder(w).Encode(entry)] for a [map[string]any] whose values
    are strings: the bytes handed to [w.Write], a JSON object followed by a
    newline. *)
Definition Encode (entry : list (string * string)) : string :=
  "{" +:+ members (sortKeys entry) +:+ "}" +:+ byte LF.

End Json.


(** ** The process environment *)

(** Go's [error]; only the message matters here. *)
Definition error : Type := string.

Definition ErrClosed : error := "file already closed".

(** An [*os.File]: the path it was opened on and whether it is still open. *)
Record File := { fname : string; fopen : bool }.

(** Operands of the variadic [v ...interface{}]. *)
Inductive Value :=
| VInt (n : Z)
| VString (s : string)
| VBool (b : bool).

Record World := {
  stdout : string;               (* bytes written to os.Stdout so far *)
  files : gmap string string;    (* the regular files, by path *)
  fds : list File;               (* the os.File objects created so far *)
  NoColor : bool;                (* color.NoColor, a package-level variable *)
  clock_reads : nat;             (* calls of time.Now so far *)
  caller_lookups : nat;          (* calls of runtime.Caller so far *)
  exited : option Z              (* exit status once the process has ended *)
}.

Definition set_stdout (f : string -> string) (w : World) : World :=
  {| stdout := f (stdout w); files := files w; fds := fds w;
     NoColor := NoColor w; clock_reads := clock_reads w;
     caller_lookups := caller_lookups w; exited := exited w |}.

Definition set_files (f : gmap string string -> gmap string string) (w : World) : World :=
  {| stdout := stdout w; files := f (files w); fds := fds w;
     NoColor := NoColor w; clock_reads := clock_reads w;
     caller_lookups := caller_lookups w; exited := exited w |}.

Definition set_fds (f : list File -> list File) (w : World) : World :=
  {| stdout := stdout w; files := files w; fds := f (fds w);
     NoColor := NoColor w; clock_reads := clock_reads w;
     caller_lookups := caller_lookups w; exited := exited w |}.

Definition set_NoColor (b : bool) (w : World) : World :=
  {| stdout := stdout w; files := files w; fds := fds w;
     NoColor := b; clock_reads := clock_reads w;
     caller_lookups := caller_lookups w; exited := exited w |}.

Definition tick_clock (w : World) : World :=
  {| stdout := stdout w; files := files w; fds := fds w;
     NoColor := NoColor w; clock_reads := S (clock_reads w);
     caller_lookups := caller_lookups w; exited := exited w |}.

Definition tick_caller (w : World) : World :=
  {| stdout := stdout w; files := files w; fds := fds w;
     NoColor := NoColor w; clock_reads := clock_reads w;
     caller_lookups := S (caller_lookups w); exited := exited w |}.

(** [os.Exit(code)], and the exit of a process that panics (status 2). *)
Definition os_Exit (code : Z) (w : World) : World :=
  {| stdout := stdout w; files := files w; fds := fds w;
     NoColor := NoColor w; clock_reads := clock_reads w;
     caller_lookups := caller_lookups w; exited := Some code |}.

Definition panic (w : World) : World := os_Exit 2 w.

(** [f.Write(data)]: an open file appends to the file at its path (every
    file here is opened with [O_APPEND]); a closed one fails with
    [ErrClosed] and writes nothing.  The logger drops the result, so only
    the effect is modelled; a write that the operating system refuses on an
    open file (disk full) is outside the model. *)
Definition File_Write (f : nat) (data : string) (w : World) : World :=
  match fds w !! f with
  | Some fl =>
    if fopen fl
    then set_files (fun m => <[fname fl := default "" (m !! fname fl) +:+ data]> m) w
    else w
  | None => w
  end.

(** [fmt.Fprintln(f, line)] for one string operand. *)
Definition Fprintln (f : nat) (line : string) (w : World) : World :=
  File_Write f (line +:+ byte LF) w.

(** fatih/color: [color.XxxString(s)] wraps [s] in the escape sequence of
    the colour unless [color.NoColor] is set. *)
Definition colorString (code : string) (s : string) (w : World) : string :=
  if NoColor w then s
  else String ESC "[" +:+ code +:+ "m" +:+ s +:+ String ESC "[0m".

Definition CyanString := colorString "36".
Definition RedString := colorString "31".
Definition GreenString := colorString "32".
Definition YellowString := colorString "33".
Definition MagentaString := colorString "35".

(** ** The logger *)

Abbreviation DEBUG := 0%Z (only parsing).
Abbreviation INFO := 1%Z (only parsing).
Abbreviation WARNING := 2%Z (only parsing).
Abbreviation ERROR := 3%Z (only parsing).
Abbreviation FATAL := 4%Z (only parsing).

(** A [*log.Logger] made by [log.New(os.Stdout, prefix, log.Ltime)]. *)
Record StdLogger := { prefix : string }.

(** [sync.Mutex] guards nothing that a sequential execution can observe and
    is left out. *)
Record Logger := {
  infoLogger : StdLogger;
  errorLogger : StdLogger;
  debugLogger : StdLogger;
  warningLogger : StdLogger;
  fatalLogger : StdLogger;
  logFile : option nat;          (* *os.File; None is nil *)
  level : Z;
  timeFormat : string;
  withCaller : bool;
  jsonMode : bool
}.

Definition set_logFile (f : option nat) (l : Logger) : Logger :=
  {| infoLogger := infoLogger l; errorLogger := errorLogger l;
     debugLogger := debugLogger l; warningLogger := warningLogger l;
     fatalLogger := fatalLogger l; logFile := f; level := level l;
     timeFormat := timeFormat l; withCaller := withCaller l;
     jsonMode := jsonMode l |}.

(** What the platform supplies and the logger does not define. *)
Class Platform := {
  Time : Type;
  (** The instant returned by the [n]-th call of [time.Now]. *)
  clock : nat -> Time;
  (** [t.Format(layout)] *)
  Format : string -> Time -> string;
  (** [fmt.Sprintf(format, v...)] *)
  Sprintf : string -> list Value -> string;
  (** [filepath.Base(path)] *)
  Base : string -> string;
  (** [os.Getenv(key)] *)
  Getenv : string -> string;
  (** The error, if any, with which the operating system refuses to open a
      path for appending. *)
  open_error : string -> option error;
  (** The error, if any, that releasing the descriptor of a file object
      reports. *)
  close_error : nat -> option error
}.

Section Logger.

Context `{Platform}.

(** [time.Now()] *)
Definition Now (w : World) : Time * World := (clock (clock_reads w), tick_clock w).

(** [os.OpenFile(name, os.O_APPEND|os.O_CREATE|os.O_WRONLY, 0666)]: a new
    file object on [name], which is created empty when it does not exist. *)
Definition OpenFile (name : string) (w : World) : (nat + error) * World :=
  match open_error name with
  | Some err => (inr err, w)
  | None =>
    (inl (length (fds w)),
     set_fds (fun l => l ++ [{| fname := name; fopen := true |}])
       (set_files (fun m => <[name := default "" (m !! name)]> m) w))
  end.

(** [f.Close()]: the file object is marked closed before the descriptor is
    released, so it is closed afterwards also when releasing reports an
    error; closing it again fails with [ErrClosed]. *)
Definition File_Close (f : nat) (w : World) : option error * World :=
  match fds w !! f with
  | Some fl =>
    if fopen fl
    then (close_error f, set_fds (fun l => <[f := {| fname := fname fl; fopen := false |}]> l) w)
    else (Some ErrClosed, w)
  | None => (Some ErrClosed, w)
  end.

(** [l.Println(msg)] on a [log.Logger] with flags [log.Ltime]: the prefix,
    the time of day of a fresh [time.Now()] and a space, the message and a
    newline, in one write to standard output. *)
Definition Println (l : StdLogger) (msg : string) (w : World) : World :=
  let '(now, w) := Now w in
  set_stdout
    (fun out => out +:+ prefix l +:+ Format "15:04:05" now +:+ " " +:+ msg +:+ byte LF) w.

Definition NewLogger (logFilePath : string) (w : World) : (Logger + error) * World :=
  match OpenFile logFilePath w with
  | (inr err, w) => (inr err, w)
  | (inl logFile, w) =>
    let w :=
      if negb (String.eqb (Getenv "FORCE_COLOR") "") then set_NoColor false w
      else if negb (String.eqb (Getenv "NO_COLOR") "") then set_NoColor true w
      else w in
    (inl {| infoLogger := {| prefix := CyanString "[INFO] " w |};
            errorLogger := {| prefix := RedString "[ERROR] " w |};
            debugLogger := {| prefix := GreenString "[DEBUG] " w |};
            warningLogger := {| prefix := YellowString "[WARNING] " w |};
            fatalLogger := {| prefix := MagentaString "[FATAL] " w |};
            logFile := Some logFile;
            level := DEBUG;
            timeFormat := "2006-01-02 15:04:05";
            withCaller := false;
            jsonMode := false |}, w)
  end.

(** [site] is what [runtime.Caller(2)] finds two frames above [log], that
    is at the call of [Debug], [Info], ... : the file and line of that call,
    or [None] when the run time cannot tell. *)
Definition log (level' : Z) (msg : string) (site : option (string * Z))
    (l : Logger) (w : World) : World :=
  if level' <? level l then w else
  let w :=
    match level' with
    | DEBUG => Println (debugLogger l) msg w
    | INFO => Println (infoLogger l) msg w
    | WARNING => Println (warningLogger l) msg w
    | ERROR => Println (errorLogger l) msg w
    | FATAL => Println (fatalLogger l) msg w
    | _ => w
    end in
  match logFile l with
  | None => w
  | Some f =>
    let levelStr :=
      match level' with
      | DEBUG => "[DEBUG] "
      | INFO => "[INFO] "
      | WARNING => "[WARNING] "
      | ERROR => "[ERROR] "
      | FATAL => "[FATAL] "
      | _ => ""
      end in
    let '(caller, w) :=
      if withCaller l then
        match site with
        | Some (file, line) => (Base file +:+ ":" +:+ Itoa line, tick_caller w)
        | None => ("", tick_caller w)
        end
      else ("", w) in
    let '(now, w) := Now w in
    let nowStr := Format (timeFormat l) now in
    if jsonMode l then
      match slice levelStr 1 (len levelStr - 2) with
      | None => panic w
      | Some levelName =>
        let entry := [("time", nowStr); ("level", levelName); ("msg", msg)] in
        let entry :=
          if negb (String.eqb caller "") then entry ++ [("caller", caller)]
          else entry in
        File_Write f (Json.Encode entry) w
      end
    else
      let line := nowStr +:+ " " +:+ levelStr +:+ msg in
      let line :=
        if negb (String.eqb caller "") then line +:+ " (" +:+ caller +:+ ")"
        else line in
      Fprintln f line w
  end.

Definition Debug (msg : string) (v : list Value) (site : option (string * Z))
    (l : Logger) (w : World) : World :=
  if level l >? DEBUG then w else
  let fullMsg := if (0 <? length v)%nat then Sprintf msg v else msg in
  log DEBUG fullMsg site l w.

Definition Info (msg : string) (v : list Value) (site : option (string * Z))
    (l : Logger) (w : World) : World :=
  if level l >? INFO then w else
  let fullMsg := if (0 <? length v)%nat then Sprintf msg v else msg in
  log INFO fullMsg site l w.

Definition Warning (msg : string) (v : list Value) (site : option (string * Z))
    (l : Logger) (w : World) : World :=
  if level l >? WARNING then w else
  let fullMsg := if (0 <? length v)%nat then Sprintf msg v else msg in
  log WARNING fullMsg site l w.

Definition Error (msg : string) (v : list Value) (site : option (string * Z))
    (l : Logger) (w : World) : World :=
  if level l >? ERROR then w else
  let fullMsg := if (0 <? length v)%nat then Sprintf msg v else msg in
  log ERROR fullMsg site l w.

Definition Fatal (msg : string) (v : list Value) (site : option (string * Z))
    (l : Logger) (w : World) : World :=
  if level l >? FATAL then w else
  let fullMsg := if (0 <? length v)%nat then Sprintf msg v else msg in
  os_Exit 1 (log FATAL fullMsg site l w).

Definition Close (l : Logger) (w : World) : option error * World :=
  match logFile l with
  | None => (None, w)
  | Some f => File_Close f w
  end.

Definition SetLevel (level' : Z) (l : Logger) : Logger :=
  {| infoLogger := infoLogger l; errorLogger := errorLogger l;
     debugLogger := debugLogger l; warningLogger := warningLogger l;
     fatalLogger := fatalLogger l; logFile := logFile l; level := level';
     timeFormat := timeFormat l; withCaller := withCaller l;
     jsonMode := jsonMode l |}.

Definition WithColors (enable : bool) (w : World) : World :=
  set_NoColor (negb enable) w.

Definition WithTimeFormat (layout : string) (l : Logger) : Logger :=
  if negb (String.eqb layout "") then
    {| infoLogger := infoLogger l; errorLogger := errorLogger l;
       debugLogger := debugLogger l; warningLogger := warningLogger l;
       fatalLogger := fatalLogger l; logFile := logFile l; level := level l;
       timeFormat := layout; withCaller := withCaller l;
       jsonMode := jsonMode l |}
  else l.

Definition WithCaller (enable : bool) (l : Logger) : Logger :=
  {| infoLogger := infoLogger l; errorLogger := errorLogger l;
     debugLogger := debugLogger l; warningLogger := warningLogger l;
     fatalLogger := fatalLogger l; logFile := logFile l; level := level l;
     timeFormat := timeFormat l; withCaller := enable;
     jsonMode := jsonMode l |}.

Definition WithJSON (l : Logger) : Logger :=
  {| infoLogger := infoLogger l; errorLogger := errorLogger l;
     debugLogger := debugLogger l; warningLogger := warningLogger l;
     fatalLogger := fatalLogger l; logFile := logFile l; level := level l;
     timeFormat := timeFormat l; withCaller := withCaller l;
     jsonMode := true |}.

Definition DisableFile (l : Logger) (w : World) : Logger * World :=
  match logFile l with
  | Some f =>
    let '(_, w) := File_Close f w in
    (set_logFile None l, w)
  | None => (l, w)
  end.

Definition EnableFile (path : string) (l : Logger) (w : World)
  : option error * (Logger * World) :=
  let w :=
    match logFile l with
    | Some f => snd (File_Close f w)
    | None => w
    end in
  match OpenFile path w with
  | (inr err, w) => (Some err, (l, w))
  | (inl f, w) => (None, (set_logFile (Some f) l, w))
  end.

(** *** The public interface as data

    The five emission methods under one name, and a client program as a
    list of calls, so that properties can range over "every method" and
    "every later call". *)

Inductive Method := MDebug | MInfo | MWarning | MError | MFatal.

Definition severity (m : Method) : Z :=
  match m with
  | MDebug => DEBUG
  | MInfo => INFO
  | MWarning => WARNING
  | MError => ERROR
  | MFatal => FATAL
  end.

Definition name (m : Method) : string :=
  match m with
  | MDebug => "DEBUG"
  | MInfo => "INFO"
  | MWarning => "WARNING"
  | MError => "ERROR"
  | MFatal => "FATAL"
  end.

(** The console logger a severity prints through. *)
Definition console (m : Method) (l : Logger) : StdLogger :=
  match m with
  | MDebug => debugLogger l
  | MInfo => infoLogger l
  | MWarning => warningLogger l
  | MError => errorLogger l
  | MFatal => fatalLogger l
  end.

Definition emit (m : Method) : string -> list Value -> option (string * Z) ->
                               Logger -> World -> World :=
  match m with
  | MDebug => Debug
  | MInfo => Info
  | MWarning => Warning
  | MError => Error
  | MFatal => Fatal
  end.

Inductive Call :=
| CEmit (m : Method) (msg : string) (v : list Value) (site : option (string * Z))
| CSetLevel (level' : Z)
| CWithColors (enable : bool)
| CWithTimeFormat (layout : string)
| CWithCaller (enable : bool)
| CWithJSON
| CDisableFile
| CEnableFile (path : string)
| CClose.

Definition call (c : Call) (s : Logger * World) : Logger * World :=
  let '(l, w) := s in
  match c with
  | CEmit m msg v site => (l, emit m msg v site l w)
  | CSetLevel level' => (SetLevel level' l, w)
  | CWithColors enable => (l, WithColors enable w)
  | CWithTimeFormat layout => (WithTimeFormat layout l, w)
  | CWithCaller enable => (WithCaller enable l, w)
  | CWithJSON => (WithJSON l, w)
  | CDisableFile => DisableFile l w
  | CEnableFile path => snd (EnableFile path l w)
  | CClose => (l, snd (Close l w))
  end.

(** Calls made one after the other; nothing runs once the process has
    exited. *)
Fixpoint run (cs : list Call) (s : Logger * World) : Logger * World :=
  match cs with
  | [] => s
  | c :: cs' =>
    match exited (snd s) with
    | Some _ => s
    | None => run cs' (call c s)
    end
  end.

Definition is_EnableFile (c : Call) : bool :=
  match c with CEnableFile _ => true | _ => false end.

(** A client program that never calls [EnableFile]. *)
Definition no_EnableFile (cs : list Call) : bool :=
  forallb (fun c => negb (is_EnableFile c)) cs.

(** The logger holds a file object that is open. *)
Definition active_sink (l : Logger) (w : World) : bool :=
  match logFile l with
  | Some f =>
    match fds w !! f with
    | Some fl => fopen fl
    | None => false
    end
  | None => false
  end.

(** The representation invariant of the file-sink field: nil, or a file
    object that is open. *)
Definition sink_ok (l : Logger) (w : World) : Prop :=
  match logFile l with
  | Some f => exists fl, fds w !! f = Some fl /\ fopen fl = true
  | None => True
  end.

(** *** Vocabulary of the statements *)

(** The message an emission method hands to [log]. *)
Definition fullMsg (msg : string) (v : list Value) : string :=
  if (0 <? length v)%nat then Sprintf msg v else msg.

(** The caller text [log] computes: empty when caller reporting is off or
    the run time does not know the call site. *)
Definition callerText (l : Logger) (site : option (string * Z)) : string :=
  if withCaller l then
    match site with
    | Some (file, line) => Base file +:+ ":" +:+ Itoa line
    | None => ""
    end
  else "".

(** The bytes [log] hands to the file object for one record stamped
    [now]. *)
Definition file_record (l : Logger) (m : Method) (text : string)
    (site : option (string * Z)) (now : Time) : string :=
  let caller := callerText l site in
  let nowStr := Format (timeFormat l) now in
  if jsonMode l then
    Json.Encode ([("time", nowStr); ("level", name m); ("msg", text)]
                 ++ (if String.eqb caller "" then [] else [("caller", caller)]))
  else
    (nowStr +:+ " [" +:+ name m +:+ "] " +:+ text
     +:+ (if String.eqb caller "" then "" else " (" +:+ caller +:+ ")"))
    +:+ byte LF.

(** What follows [log] in an emission method: [Fatal] ends the process. *)
Definition finish (m : Method) (w : World) : World :=
  match m with
  | MFatal => os_Exit 1 w
  | _ => w
  end.

End Logger.

(** ** The client side: more vocabulary and the example program *)

(** Every file of [m] is still in [m'], with its old content at the front. *)
Definition extends (m m' : gmap string string) : Prop :=
  forall p c, m !! p = Some c -> exists d, m' !! p = Some (c +:+ d).

(** Every file object that is open is the one in the logger's field. *)
Definition no_stray_open (l : Logger) (w : World) : Prop :=
  forall f fl, fds w !! f = Some fl -> fopen fl = true -> logFile l = Some f.

Definition is_Fatal (c : Call) : bool :=
  match c with
  | CEmit MFatal _ _ _ => true
  | _ => false
  end.

(** A client program that never calls [Fatal]. *)
Definition no_Fatal (cs : list Call) : bool :=
  forallb (fun c => negb (is_Fatal c)) cs.

(** The SGR code of the colour [NewLogger] gives each severity. *)
Definition colorCode (m : Method) : string :=
  match m with
  | MInfo => "36"
  | MError => "31"
  | MDebug => "32"
  | MWarning => "33"
  | MFatal => "35"
  end.

Section Client.

Context `{Platform}.

(** [log.Fatal(err)] of the standard library, as [main] uses it: the
    standard logger writes the date and time, the error and a newline to
    standard error, then the process exits with status 1.  Standard error is
    not part of [World]; what is written there is returned beside it. *)
Definition log_Fatal (err : error) (w : World) : string * World :=
  let '(now, w) := Now w in
  (Format "2006/01/02 15:04:05" now +:+ " " +:+ err +:+ byte LF, os_Exit 1 w).

(** [examples/basic/main.go].  [src] is the path of [main.go] as the compiler
    recorded it; the result is what went to standard error, and the world
    when the process ends.  The deferred [l.Close()] runs when [main]
    returns, and not when [log.Fatal] exits. *)
Definition main (src : string) (w : World) : string * World :=
  match NewLogger "app.log" w with
  | (inr err, w) => log_Fatal err w
  | (inl l, w) =>
    let w := Info "Hello from YagaLog %d" [VInt 1] (Some (src, 13)) l w in
    let w := Warning "Be careful" [] (Some (src, 14)) l w in
    let w := Error "Oops: %s" [VString "something went wrong"] (Some (src, 15)) l w in
    ("", snd (Close l w))
  end.

End Client.

(** ** A concrete platform

    One instance of [Platform], on which the definitions are evaluated. *)

Module Host.

(** Seconds since midnight, on 2025-10-30. *)
Definition Time : Type := nat.

Definition clock (n : nat) : Time := (12 * 3600 + n)%nat.

Definition two (n : nat) : string :=
  (if (n <? 10)%nat then "0" else "") +:+ Itoa (Z.of_nat n).

Definition hms (t : Time) : string :=
  two (t / 3600 mod 24) +:+ ":" +:+ two (t / 60 mod 60) +:+ ":" +:+ two (t mod 60).

(** [Format] for the two layouts the logger itself uses; any other layout
    is taken to hold no element of the reference time and is copied. *)
Definition Format (layout : string) (t : Time) : string :=
  if String.eqb layout "15:04:05" then hms t
  else if String.eqb layout "2006-01-02 15:04:05" then "2025-10-30 " +:+ hms t
  else layout.

Definition typeName (a : Value) : string :=
  match a with VInt _ => "int" | VString _ => "string" | VBool _ => "bool" end.

Definition show (a : Value) : string :=
  match a with
  | VInt n => Itoa n
  | VString s => s
  | VBool b => if b then "true" else "false"
  end.

Definition verb (c : ascii) (a : Value) : string :=
  match c, a with
  | "d"%char, VInt n => Itoa n
  | "s"%char, VString s => s
  | "t"%char, VBool b => show a
  | "v"%char, _ => show a
  | _, _ => "%!" +:+ byte c +:+ "(" +:+ typeName a +:+ "=" +:+ show a +:+ ")"
  end.

Fixpoint extra (v : list Value) : string :=
  match v with
  | [] => ""
  | [a] => typeName a +:+ "=" +:+ show a
  | a :: v' => typeName a +:+ "=" +:+ show a +:+ ", " +:+ extra v'
  end.

(** [fmt.Sprintf] for templates whose verbs carry no flag, width or
    argument index. *)
Fixpoint Sprintf (format : string) (v : list Value) : string :=
  match format with
  | "" => match v with [] => "" | _ => "%!(EXTRA " +:+ extra v +:+ ")" end
  | String "%" "" =>
    "%!(NOVERB)" +:+ match v with [] => "" | _ => "%!(EXTRA " +:+ extra v +:+ ")" end
  | String "%" (String c rest) =>
    if Ascii.eqb c "%" then String "%" (Sprintf rest v)
    else match v with
         | [] => "%!" +:+ byte c +:+ "(MISSING)" +:+ Sprintf rest []
         | a :: v' => verb c a +:+ Sprintf rest v'
         end
  | String c rest => String c (Sprintf rest v)
  end.

(** [filepath.Base] with [/] as the separator: trailing slashes are dropped,
    then everything up to the last slash. *)
Fixpoint stripTrailingSlashes (path : string) : string :=
  match path with
  | "" => ""
  | String c rest =>
    let rest' := stripTrailingSlashes rest in
    if Ascii.eqb c "/" && String.eqb rest' "" then "" else String c rest'
  end.

Fixpoint lastElement (path : string) : string :=
  match path with
  | "" => ""
  | String c rest => if (0 <? count "/" path)%nat then lastElement rest else path
  end.

Definition Base (path : string) : string :=
  if String.eqb path "" then "."
  else
    let path := stripTrailingSlashes path in
    if String.eqb path "" then "/" else lastElement path.

Definition Getenv (key : string) : string := "".

(** Nothing under [/nonexistent] can be opened. *)
Definition open_error (path : string) : option error :=
  if String.prefix "/nonexistent/" path
  then Some "no such file or directory" else None.

Definition close_error (f : nat) : option error := None.

(** A process that has just started. *)
Definition start : World :=
  {| stdout := ""; files := ∅; fds := []; NoColor := true;
     clock_reads := 0; caller_lookups := 0; exited := None |}.

End Host.

#[export] Instance host : Platform := {|
  Time := Host.Time;
  clock := Host.clock;
  Format := Host.Format;
  Sprintf := Host.Sprintf;
  Base := Host.Base;
  Getenv := Host.Getenv;
  open_error := Host.open_error;
  close_error := Host.close_error
|}.

(** The logger and the world right after [NewLogger("app.log")] in a process
    that has just started. *)
Definition app_logger : Logger :=
  {| infoLogger := {| prefix := "[INFO] " |};
     errorLogger := {| prefix := "[ERROR] " |};
     debugLogger := {| prefix := "[DEBUG] " |};
     warningLogger := {| prefix := "[WARNING] " |};
     fatalLogger := {| prefix := "[FATAL] " |};
     logFile := Some 0%nat;
     level := DEBUG;
     timeFormat := "2006-01-02 15:04:05";
     withCaller := false;
     jsonMode := false |}.

Definition app_file : File := {| fname := "app.log"; fopen := true |}.

Definition app_world : World :=
  {| stdout := ""; files := {["app.log" := ""]}; fds := [app_file];
     NoColor := true; clock_reads := 0; caller_lookups := 0; exited := None |}.

(** The same logger as it is made when colours are on. *)
Definition colour_logger : Logger :=
  {| infoLogger := {| prefix := String ESC "[36m[INFO] " +:+ String ESC "[0m" |};
     errorLogger := {| prefix := String ESC "[31m[ERROR] " +:+ String ESC "[0m" |};
     debugLogger := {| prefix := String ESC "[32m[DEBUG] " +:+ String ESC "[0m" |};
     warningLogger := {| prefix := String ESC "[33m[WARNING] " +:+ String ESC "[0m" |};
     fatalLogger := {| prefix := String ESC "[35m[FATAL] " +:+ String ESC "[0m" |};
     logFile := Some 0%nat;
     level := DEBUG;
     timeFormat := "2006-01-02 15:04:05";
     withCaller := false;
     jsonMode := false |}.



(** * Properties *)

(** ** Byte strings *)

Lemma app_assoc_s (a b c : string) : (a +:+ b) +:+ c = a +:+ b +:+ c.
Proof. induction a as [|x a IH]; [reflexivity|]. change (String x ((a +:+ b) +:+ c) = String x (a +:+ b +:+ c)). now rewrite IH. Qed.

Lemma app_nil_r_s (a : string) : a +:+ "" = a.
Proof. induction a as [|x a IH]; [reflexivity|]. change (String x (a +:+ "") = String x a). now rewrite IH. Qed.

Lemma app_cons_s x (a b : string) : String x a +:+ b = String x (a +:+ b).
Proof. reflexivity. Qed.

Lemma app_nil_l_s (a : string) : "" +:+ a = a.
Proof. reflexivity. Qed.

(** Concatenations brought to one shape: nested to the right, literals
    folded into their right neighbour. *)
Ltac str_norm :=
  rewrite ?app_assoc_s; rewrite ?app_cons_s; rewrite ?app_nil_l_s.

Lemma count_app b (s t : string) : count b (s +:+ t) = (count b s + count b t)%nat.
Proof.
  induction s as [|x s IH]; [reflexivity|].
  rewrite app_cons_s. simpl. rewrite IH. lia.
Qed.

Lemma eqb_app_colon (a b : string) : String.eqb (a +:+ ":" +:+ b) "" = false.
Proof. destruct a; reflexivity. Qed.


(** ** The JSON string encoder *)

Local Open Scope N_scope.

Lemma safeSet_not_LF b : Json.safeSet b = true -> Ascii.eqb b LF = false.
Proof.
  destruct b as [[] [] [] [] [] [] [] []]; vm_compute; intros; congruence.
Qed.

Lemma escapeByte_no_LF b : count LF (Json.escapeByte b) = 0%nat.
Proof. destruct b as [[] [] [] [] [] [] [] []]; vm_compute; reflexivity. Qed.

Lemma high_not_LF b : (Json.RuneSelf <=? N_of_ascii b) = true -> Ascii.eqb b LF = false.
Proof.
  destruct b as [[] [] [] [] [] [] [] []]; vm_compute; intros; congruence.
Qed.

Lemma all_high_no_LF s : Json.all_high s = true -> count LF s = 0%nat.
Proof.
  induction s as [|c s IH]; [reflexivity|]. simpl.
  intros [Hc Hs]%andb_true_iff. rewrite (high_not_LF c Hc), (IH Hs). reflexivity.
Qed.

Lemma first_range s0 sz lo hi :
  Json.first s0 = Some (sz, lo, hi) ->
  Json.RuneSelf <= lo /\ (2 <= sz <= 4)%nat.
Proof.
  unfold Json.first, Json.RuneSelf, Json.locb, Json.hicb.
  repeat match goal with
         | |- context [if ?g then _ else _] => destruct g
         end; intros E; inversion E; subst; split; lia.
Qed.

Lemma cont_high s : Json.cont s = true -> (Json.RuneSelf <=? s) = true.
Proof. unfold Json.cont, Json.locb, Json.RuneSelf. intros [? _]%andb_true_iff. assumption. Qed.

Lemma range_high s lo hi :
  Json.RuneSelf <= lo -> (s <? lo) || (hi <? s) = false -> (Json.RuneSelf <=? s) = true.
Proof.
  intros Hlo [H1 _]%orb_false_iff. apply N.ltb_ge in H1. apply N.leb_le. lia.
Qed.

(** The decoder consumes at least one byte and no more than there are, and
    the bytes of a rune outside ASCII are all outside ASCII. *)
Lemma Decode_high b rest c size :
  (N_of_ascii b <? Json.RuneSelf) = false ->
  Json.DecodeRuneInString (String b rest) = (c, size) ->
  (1 <= size <= String.length (String b rest))%nat /\
  Json.all_high (take size (String b rest)) = true.
Proof.
  intros Hb. assert (Hb' : (Json.RuneSelf <=? N_of_ascii b) = true).
  { apply N.leb_le. apply N.ltb_ge in Hb. exact Hb. }
  unfold Json.DecodeRuneInString. rewrite Hb.
  destruct (Json.first (N_of_ascii b)) as [[[sz lo] hi]|] eqn:F.
  2:{ intros E; inversion E; subst. simpl. rewrite Hb'. split; [lia|reflexivity]. }
  destruct (first_range _ _ _ _ F) as [Hlo Hsz].
  destruct rest as [|c1 t1].
  { intros E; inversion E; subst. simpl. rewrite Hb'. split; [lia|reflexivity]. }
  destruct ((N_of_ascii c1 <? lo) || (hi <? N_of_ascii c1)) eqn:R1.
  { intros E; inversion E; subst. simpl. rewrite Hb'. split; [lia|reflexivity]. }
  pose proof (range_high _ _ _ Hlo R1) as H1.
  destruct (sz <=? 2)%nat.
  { intros E; inversion E; subst. simpl. rewrite Hb', H1. split; [lia|reflexivity]. }
  destruct t1 as [|c2 t2].
  { intros E; inversion E; subst. simpl. rewrite Hb'. split; [lia|reflexivity]. }
  destruct (Json.cont (N_of_ascii c2)) eqn:R2; simpl negb; cbv iota.
  2:{ intros E; inversion E; subst. simpl. rewrite Hb'. split; [lia|reflexivity]. }
  pose proof (cont_high _ R2) as H2.
  destruct (sz <=? 3)%nat.
  { intros E; inversion E; subst. simpl. rewrite Hb', H1, H2. split; [lia|reflexivity]. }
  destruct t2 as [|c3 t3].
  { intros E; inversion E; subst. simpl. rewrite Hb'. split; [lia|reflexivity]. }
  destruct (Json.cont (N_of_ascii c3)) eqn:R3; simpl negb; cbv iota.
  2:{ intros E; inversion E; subst. simpl. rewrite Hb'. split; [lia|reflexivity]. }
  pose proof (cont_high _ R3) as H3.
  intros E; inversion E; subst. simpl. rewrite Hb', H1, H2, H3. split; [lia|reflexivity].
Qed.

Local Close Scope N_scope.

Lemma length_app_s (a b : string) :
  String.length (a +:+ b) = (String.length a + String.length b)%nat.
Proof.
  induction a as [|x a IH]; [reflexivity|]. rewrite app_cons_s. simpl. rewrite IH. reflexivity.
Qed.

Lemma length_drop_le n (s : string) : (String.length (drop n s) <= String.length s)%nat.
Proof.
  revert s. induction n as [|n IH]; intros [|c s]; simpl; try lia.
  specialize (IH s). lia.
Qed.

Lemma take_app_le n (a b : string) :
  (n <= String.length a)%nat -> take n (a +:+ b) = take n a.
Proof.
  revert a. induction n as [|n IH]; intros a Hn; [reflexivity|].
  destruct a as [|x a]; simpl in Hn; [lia|].
  rewrite app_cons_s. simpl. rewrite IH by lia. reflexivity.
Qed.

Lemma drop_app_le n (a b : string) :
  (n <= String.length a)%nat -> drop n (a +:+ b) = drop n a +:+ b.
Proof.
  revert a. induction n as [|n IH]; intros a Hn; [reflexivity|].
  destruct a as [|x a]; simpl in Hn; [lia|].
  rewrite app_cons_s. simpl. apply IH. lia.
Qed.

(** Fuel beyond the length of the input changes nothing. *)
Lemma appendString_loop_fuel f1 : forall f2 s,
  (String.length s <= f1)%nat -> (String.length s <= f2)%nat ->
  Json.appendString_loop f1 s = Json.appendString_loop f2 s.
Proof.
  induction f1 as [|f1 IH]; intros f2 [|b rest] H1 H2; simpl in H1, H2;
    try (destruct f2; reflexivity); try lia.
  destruct f2 as [|f2]; [lia|].
  cbn [Json.appendString_loop].
  destruct (N.ltb (N_of_ascii b) Json.RuneSelf) eqn:Hb.
  { rewrite (IH f2 rest) by lia. reflexivity. }
  destruct (Json.DecodeRuneInString (String b rest)) as [c size] eqn:D.
  destruct (Decode_high b rest c size Hb D) as [[Hs1 Hs2] _].
  assert (Hd : (String.length (drop size (String b rest)) <= String.length rest)%nat).
  { destruct size as [|size]; [lia|]. simpl. apply length_drop_le. }
  rewrite (IH f2 rest) by lia.
  rewrite (IH f2 (drop size (String b rest))) by lia.
  reflexivity.
Qed.

(** One iteration of the encoder's loop. *)
Lemma escape_cons b rest :
  Json.escape (String b rest) =
  if N.ltb (N_of_ascii b) Json.RuneSelf then
    (if Json.safeSet b then byte b else Json.escapeByte b) +:+ Json.escape rest
  else
    let '(c, size) := Json.DecodeRuneInString (String b rest) in
    if (c =? Json.RuneError)%N && (size =? 1)%nat then
      String BACKSLASH "ufffd" +:+ Json.escape rest
    else if (c =? 8232)%N || (c =? 8233)%N then
      String BACKSLASH "u202" +:+ byte (Json.hex (N.land c 15))
        +:+ Json.escape (drop size (String b rest))
    else
      take size (String b rest) +:+ Json.escape (drop size (String b rest)).
Proof.
  unfold Json.escape. simpl String.length. cbn [Json.appendString_loop].
  destruct (N.ltb (N_of_ascii b) Json.RuneSelf) eqn:Hb; [reflexivity|].
  destruct (Json.DecodeRuneInString (String b rest)) as [c size] eqn:D.
  destruct (Decode_high b rest c size Hb D) as [[Hs1 Hs2] _].
  assert (Hd : (String.length (drop size (String b rest)) <= String.length rest)%nat).
  { destruct size as [|size]; [lia|]. simpl. apply length_drop_le. }
  rewrite (appendString_loop_fuel (String.length rest)
             (String.length (drop size (String b rest))) (drop size (String b rest)));
    [reflexivity|lia|lia].
Qed.

Lemma hex_no_LF n : Ascii.eqb (Json.hex n) LF = false.
Proof.
  unfold Json.hex.
  destruct (N.to_nat n) as [|[|[|[|[|[|[|[|[|[|[|[|[|[|[|[|k]]]]]]]]]]]]]]]];
    reflexivity.
Qed.

(** The encoder never emits a raw line feed. *)
Lemma escape_no_LF s : count LF (Json.escape s) = 0%nat.
Proof.
  remember (String.length s) as n eqn:Hn.
  assert (Hle : (String.length s <= n)%nat) by lia. clear Hn.
  revert s Hle. induction n as [|n IH]; intros [|b rest] Hle; simpl in Hle;
    try reflexivity; try lia.
  rewrite escape_cons.
  destruct (N.ltb (N_of_ascii b) Json.RuneSelf) eqn:Hb.
  { rewrite count_app, (IH rest) by lia.
    destruct (Json.safeSet b) eqn:Hs.
    - simpl. rewrite (safeSet_not_LF b Hs). reflexivity.
    - rewrite escapeByte_no_LF. reflexivity. }
  destruct (Json.DecodeRuneInString (String b rest)) as [c size] eqn:D.
  destruct (Decode_high b rest c size Hb D) as [[Hs1 Hs2] Hhigh].
  assert (Hd : (String.length (drop size (String b rest)) <= n)%nat).
  { destruct size as [|size]; [lia|]. simpl. pose proof (length_drop_le size rest). lia. }
  destruct ((c =? Json.RuneError)%N && (size =? 1)%nat).
  { rewrite count_app, (IH rest) by lia. reflexivity. }
  destruct ((c =? 8232)%N || (c =? 8233)%N).
  - rewrite !count_app, (IH _ Hd). simpl. rewrite hex_no_LF. reflexivity.
  - rewrite count_app, (IH _ Hd), (all_high_no_LF _ Hhigh). reflexivity.
Qed.

Lemma appendString_no_LF s : count LF (Json.appendString s) = 0%nat.
Proof.
  unfold Json.appendString, Json.quoted. rewrite !count_app, escape_no_LF. reflexivity.
Qed.

(** A rune that starts before an ASCII byte ends before it. *)
Lemma Decode_before_ASCII b rest c post :
  N.ltb (N_of_ascii b) Json.RuneSelf = false ->
  N.ltb (N_of_ascii c) Json.RuneSelf = true ->
  Json.DecodeRuneInString (String b (rest +:+ String c post))
  = Json.DecodeRuneInString (String b rest).
Proof.
  intros Hb Hc. apply N.ltb_lt in Hc.
  assert (Hcont : Json.cont (N_of_ascii c) = false).
  { unfold Json.cont, Json.locb. apply andb_false_iff. left.
    apply N.leb_gt. exact Hc. }
  unfold Json.DecodeRuneInString. rewrite Hb.
  destruct (Json.first (N_of_ascii b)) as [[[sz lo] hi]|] eqn:F; [|reflexivity].
  destruct (first_range _ _ _ _ F) as [Hlo Hsz].
  destruct rest as [|c1 t1].
  { rewrite app_nil_l_s.
    assert (E : (N.ltb (N_of_ascii c) lo) = true) by (apply N.ltb_lt; lia).
    rewrite E. reflexivity. }
  rewrite app_cons_s.
  destruct ((N.ltb (N_of_ascii c1) lo) || (N.ltb hi (N_of_ascii c1))); [reflexivity|].
  destruct (sz <=? 2)%nat; [reflexivity|].
  destruct t1 as [|c2 t2].
  { rewrite app_nil_l_s, Hcont. reflexivity. }
  rewrite app_cons_s.
  destruct (Json.cont (N_of_ascii c2)); simpl negb; cbv iota; [|reflexivity].
  destruct (sz <=? 3)%nat; [reflexivity|].
  destruct t2 as [|c3 t3].
  { rewrite app_nil_l_s, Hcont. reflexivity. }
  rewrite app_cons_s. reflexivity.
Qed.

(** The encoding of a text splits at every ASCII byte. *)
Lemma escape_split_at_ASCII pre c post :
  N.ltb (N_of_ascii c) Json.RuneSelf = true ->
  Json.escape (pre +:+ String c post)
  = Json.escape pre +:+ Json.escape (String c post).
Proof.
  intros Hc.
  remember (String.length pre) as n eqn:Hn.
  assert (Hle : (String.length pre <= n)%nat) by lia. clear Hn.
  revert pre Hle. induction n as [|n IH]; intros [|b rest] Hle; simpl in Hle;
    try reflexivity; try lia.
  rewrite app_cons_s, (escape_cons b rest), (escape_cons b (rest +:+ String c post)).
  destruct (N.ltb (N_of_ascii b) Json.RuneSelf) eqn:Hb.
  { rewrite IH by lia. rewrite app_assoc_s. reflexivity. }
  rewrite (Decode_before_ASCII b rest c post Hb Hc).
  destruct (Json.DecodeRuneInString (String b rest)) as [r size] eqn:D.
  destruct (Decode_high b rest r size Hb D) as [[Hs1 Hs2] _].
  assert (Hd : (String.length (drop size (String b rest)) <= n)%nat).
  { destruct size as [|size]; [lia|]. simpl. pose proof (length_drop_le size rest). lia. }
  assert (Edrop : drop size (String b (rest +:+ String c post))
                  = drop size (String b rest) +:+ String c post).
  { rewrite <- app_cons_s. apply drop_app_le. exact Hs2. }
  assert (Etake : take size (String b (rest +:+ String c post)) = take size (String b rest)).
  { rewrite <- app_cons_s. apply take_app_le. exact Hs2. }
  destruct ((r =? Json.RuneError)%N && (size =? 1)%nat).
  { rewrite IH by lia. rewrite !app_assoc_s. reflexivity. }
  destruct ((r =? 8232)%N || (r =? 8233)%N).
  - rewrite Edrop, (IH _ Hd). rewrite !app_assoc_s. reflexivity.
  - rewrite Edrop, Etake, (IH _ Hd). rewrite !app_assoc_s. reflexivity.
Qed.

(** [<], [>] and [&] are copied, each where it stood. *)
Lemma escape_keeps_markup pre c post :
  c = "<"%char \/ c = ">"%char \/ c = "&"%char ->
  Json.escape (pre +:+ String c post)
  = Json.escape pre +:+ String c (Json.escape post).
Proof.
  intros Hc.
  assert (Hascii : N.ltb (N_of_ascii c) Json.RuneSelf = true /\ Json.safeSet c = true).
  { destruct Hc as [->|[->| ->]]; split; reflexivity. }
  destruct Hascii as [Hlt Hsafe].
  rewrite (escape_split_at_ASCII pre c post Hlt), (escape_cons c post), Hlt, Hsafe.
  reflexivity.
Qed.


Section LoggerFacts.

Context `{Platform}.

(** ** How the pieces of the platform act on the world *)

Lemma File_Write_stdout f data w : stdout (File_Write f data w) = stdout w.
Proof.
  unfold File_Write. destruct (fds w !! f) as [fl|]; [destruct (fopen fl)|]; reflexivity.
Qed.

Lemma File_Write_exited f data w : exited (File_Write f data w) = exited w.
Proof.
  unfold File_Write. destruct (fds w !! f) as [fl|]; [destruct (fopen fl)|]; reflexivity.
Qed.

Lemma File_Write_fds f data w : fds (File_Write f data w) = fds w.
Proof.
  unfold File_Write. destruct (fds w !! f) as [fl|]; [destruct (fopen fl)|]; reflexivity.
Qed.

Lemma File_Write_open f fl data w :
  fds w !! f = Some fl -> fopen fl = true ->
  files (File_Write f data w)
  = <[fname fl := default "" (files w !! fname fl) +:+ data]> (files w).
Proof. intros Hf Ho. unfold File_Write. rewrite Hf, Ho. reflexivity. Qed.

Lemma File_Write_inactive f data w :
  match fds w !! f with Some fl => fopen fl | None => false end = false ->
  File_Write f data w = w.
Proof.
  unfold File_Write. destruct (fds w !! f) as [fl|]; [|reflexivity].
  intros ->. reflexivity.
Qed.

Lemma Println_stdout c msg w :
  stdout (Println c msg w)
  = stdout w +:+ prefix c +:+ Format "15:04:05" (clock (clock_reads w))
      +:+ " " +:+ msg +:+ byte LF.
Proof. reflexivity. Qed.

Lemma Println_files c msg w : files (Println c msg w) = files w.
Proof. reflexivity. Qed.

Lemma Println_fds c msg w : fds (Println c msg w) = fds w.
Proof. reflexivity. Qed.

Lemma Println_exited c msg w : exited (Println c msg w) = exited w.
Proof. reflexivity. Qed.

Lemma Println_clock_reads c msg w : clock_reads (Println c msg w) = S (clock_reads w).
Proof. reflexivity. Qed.

(** ** The threshold *)

Lemma not_filtered m l : level l <= severity m -> (severity m <? level l) = false.
Proof. intros. apply Z.ltb_ge. assumption. Qed.

Lemma guard_passes m l : level l <= severity m -> (level l >? severity m) = false.
Proof. intros. rewrite Z.gtb_ltb. apply Z.ltb_ge. assumption. Qed.

Lemma guard_stops m l : severity m < level l -> (level l >? severity m) = true.
Proof. intros. rewrite Z.gtb_ltb. apply Z.ltb_lt. assumption. Qed.

Lemma emit_filtered m msg v site l w :
  severity m < level l -> emit m msg v site l w = w.
Proof.
  intros Hlt. apply guard_stops in Hlt.
  destruct m; simpl in *; unfold Debug, Info, Warning, Error, Fatal;
    rewrite Hlt; reflexivity.
Qed.

(** C1: a call of [Debug], [Info], [Warning], [Error] or [Fatal] whose
    severity lies below the threshold returns the world it was given:
    nothing is written to standard output or to any file, [runtime.Caller]
    and [time.Now] are not called, no file object changes and the process
    goes on.  The logger itself is only ever read by an emission. *)
Theorem emit_below_threshold m msg v site l w :
  severity m < level l ->
  emit m msg v site l w = w /\
  stdout (emit m msg v site l w) = stdout w /\
  files (emit m msg v site l w) = files w /\
  clock_reads (emit m msg v site l w) = clock_reads w /\
  caller_lookups (emit m msg v site l w) = caller_lookups w /\
  exited (emit m msg v site l w) = exited w.
Proof.
  intros Hlt. rewrite (emit_filtered m msg v site l w Hlt). repeat split.
Qed.

(** ** What one emission does *)

Lemma emit_passes m msg v site l w :
  level l <= severity m ->
  emit m msg v site l w = finish m (log (severity m) (fullMsg msg v) site l w).
Proof.
  intros Hle. apply guard_passes in Hle.
  destruct m; simpl in *; unfold Debug, Info, Warning, Error, Fatal, fullMsg;
    rewrite Hle; reflexivity.
Qed.

Lemma finish_stdout m w : stdout (finish m w) = stdout w.
Proof. destruct m; reflexivity. Qed.

Lemma finish_files m w : files (finish m w) = files w.
Proof. destruct m; reflexivity. Qed.

Lemma finish_fds m w : fds (finish m w) = fds w.
Proof. destruct m; reflexivity. Qed.

(** [log] at a severity that passes the threshold: the console line, then,
    with a file object in the field, caller, clock and the write. *)
Lemma log_passes m text site l w :
  level l <= severity m ->
  log (severity m) text site l w =
  let w1 := Println (console m l) text w in
  match logFile l with
  | None => w1
  | Some f =>
    let w2 := if withCaller l then tick_caller w1 else w1 in
    File_Write f (file_record l m text site (clock (clock_reads w2))) (tick_clock w2)
  end.
Proof.
  intros Hle. apply not_filtered in Hle. unfold log. rewrite Hle.
  unfold file_record, callerText, Fprintln, Now.
  destruct m; simpl severity; cbv iota beta; cbv zeta;
    (destruct (logFile l) as [f|]; [|reflexivity]);
    (destruct (withCaller l); [destruct site as [[file line]|]|]);
    rewrite ?eqb_app_colon; simpl negb; cbv iota;
    destruct (jsonMode l); try reflexivity;
    simpl console; simpl name; simpl String.eqb; cbv iota;
    f_equal; unfold byte; str_norm; reflexivity.
Qed.

Lemma log_stdout m text site l w :
  level l <= severity m ->
  stdout (log (severity m) text site l w)
  = stdout w +:+ prefix (console m l) +:+ Format "15:04:05" (clock (clock_reads w))
      +:+ " " +:+ text +:+ byte LF.
Proof.
  intros Hle. rewrite (log_passes _ _ _ _ _ Hle). cbv zeta.
  destruct (logFile l) as [f|]; [|reflexivity].
  rewrite File_Write_stdout. destruct (withCaller l); reflexivity.
Qed.

Lemma log_exited m text site l w :
  level l <= severity m -> exited (log (severity m) text site l w) = exited w.
Proof.
  intros Hle. rewrite (log_passes _ _ _ _ _ Hle). cbv zeta.
  destruct (logFile l) as [f|]; [|reflexivity].
  rewrite File_Write_exited. destruct (withCaller l); reflexivity.
Qed.

Lemma log_fds lvl text site l w : fds (log lvl text site l w) = fds w.
Proof.
  unfold log. destruct (lvl <? level l); [reflexivity|].
  set (w1 := match lvl with
             | DEBUG => Println (debugLogger l) text w
             | INFO => Println (infoLogger l) text w
             | WARNING => Println (warningLogger l) text w
             | ERROR => Println (errorLogger l) text w
             | FATAL => Println (fatalLogger l) text w
             | _ => w
             end).
  assert (Hw1 : fds w1 = fds w).
  { subst w1. destruct lvl as [|[[[]|[]|]|[[]|[]|]|]|]; reflexivity. }
  destruct (logFile l) as [f|]; [|exact Hw1].
  destruct (withCaller l); [destruct site as [[file line]|]|];
    cbv iota beta; unfold Now; cbv iota beta;
    (destruct (jsonMode l);
     [ match goal with |- context [slice ?s ?a ?b] => destruct (slice s a b) end
     | unfold Fprintln ]);
    rewrite ?File_Write_fds; exact Hw1.
Qed.

Lemma log_files_inactive lvl text site l w :
  active_sink l w = false -> files (log lvl text site l w) = files w.
Proof.
  intros Hin. unfold log. destruct (lvl <? level l); [reflexivity|].
  set (w1 := match lvl with
             | DEBUG => Println (debugLogger l) text w
             | INFO => Println (infoLogger l) text w
             | WARNING => Println (warningLogger l) text w
             | ERROR => Println (errorLogger l) text w
             | FATAL => Println (fatalLogger l) text w
             | _ => w
             end).
  assert (Hw1 : files w1 = files w /\ fds w1 = fds w).
  { subst w1. destruct lvl as [|[[[]|[]|]|[[]|[]|]|]|]; split; reflexivity. }
  destruct Hw1 as [Hfiles Hfds].
  unfold active_sink in Hin.
  destruct (logFile l) as [f|]; [|exact Hfiles].
  destruct (withCaller l); [destruct site as [[file line]|]|];
    cbv iota beta; unfold Now; cbv iota beta;
    (destruct (jsonMode l);
     [ match goal with |- context [slice ?s ?a ?b] => destruct (slice s a b) end
     | unfold Fprintln ]);
    try (rewrite File_Write_inactive; [exact Hfiles | simpl fds; rewrite Hfds; exact Hin]);
    exact Hfiles.
Qed.

Lemma log_files_active m text site l w f fl :
  level l <= severity m ->
  logFile l = Some f -> fds w !! f = Some fl -> fopen fl = true ->
  files (log (severity m) text site l w)
  = <[fname fl := default "" (files w !! fname fl)
                  +:+ file_record l m text site (clock (S (clock_reads w)))]> (files w).
Proof.
  intros Hle Hf Hfl Ho. rewrite (log_passes _ _ _ _ _ Hle). cbv zeta. rewrite Hf.
  rewrite (File_Write_open f fl); [|destruct (withCaller l); exact Hfl|exact Ho].
  destruct (withCaller l); reflexivity.
Qed.

(** How often an emission that passes the threshold consults the clock
    and the call stack. *)
Lemma log_counters m text site l w :
  level l <= severity m ->
  let w' := log (severity m) text site l w in
  clock_reads w' = (clock_reads w + match logFile l with Some _ => 2 | None => 1 end)%nat /\
  caller_lookups w'
  = (caller_lookups w
     + match logFile l with Some _ => if withCaller l then 1 else 0 | None => 0 end)%nat.
Proof.
  intros Hle. cbv zeta. rewrite (log_passes _ _ _ _ _ Hle). cbv zeta.
  destruct (logFile l) as [f|]; [|simpl; lia].
  unfold File_Write.
  destruct (withCaller l);
    (match goal with |- context [fds ?x !! f] => destruct (fds x !! f) as [fl|] end;
     [destruct (fopen fl)|]); simpl; lia.
Qed.

(** C2: [Fatal] below the threshold returns the world it was given (no
    output on either sink, and the process is not ended by it); at or
    above the threshold it prints the console line, writes the file record
    when the logger holds an open file, and then ends the process with
    exit status 1. *)
Theorem Fatal_filtered_or_logs_and_exits msg v site l w :
  (FATAL < level l -> Fatal msg v site l w = w) /\
  (level l <= FATAL ->
     exited (Fatal msg v site l w) = Some 1 /\
     stdout (Fatal msg v site l w)
     = stdout w +:+ prefix (fatalLogger l) +:+ Format "15:04:05" (clock (clock_reads w))
         +:+ " " +:+ fullMsg msg v +:+ byte LF /\
     (forall f fl, logFile l = Some f -> fds w !! f = Some fl -> fopen fl = true ->
        files (Fatal msg v site l w)
        = <[fname fl := default "" (files w !! fname fl)
              +:+ file_record l MFatal (fullMsg msg v) site (clock (S (clock_reads w)))]>
            (files w)) /\
     (logFile l = None -> files (Fatal msg v site l w) = files w)).
Proof.
  split.
  - intros Hlt. exact (emit_filtered MFatal msg v site l w Hlt).
  - intros Hle.
    pose proof (emit_passes MFatal msg v site l w Hle) as E. simpl in E.
    rewrite E. repeat split.
    + simpl. exact (log_stdout MFatal _ site l w Hle).
    + intros f fl Hf Hfl Ho. simpl. exact (log_files_active MFatal _ site l w f fl Hle Hf Hfl Ho).
    + intros Hn. simpl. apply log_files_inactive. unfold active_sink. rewrite Hn. reflexivity.
Qed.

(** C9: [WithTimeFormat] with the empty layout returns the logger as it
    was; with any other layout it replaces the time format and nothing
    else. *)
Theorem WithTimeFormat_empty_ignored l layout :
  WithTimeFormat "" l = l /\
  (layout <> "" ->
     timeFormat (WithTimeFormat layout l) = layout /\
     level (WithTimeFormat layout l) = level l /\
     withCaller (WithTimeFormat layout l) = withCaller l /\
     jsonMode (WithTimeFormat layout l) = jsonMode l /\
     logFile (WithTimeFormat layout l) = logFile l /\
     (forall m, console m (WithTimeFormat layout l) = console m l)).
Proof.
  split; [reflexivity|].
  intros Hne. apply String.eqb_neq in Hne. unfold WithTimeFormat. rewrite Hne. simpl.
  repeat split.
Qed.

(** C10: each of [Debug], [Info], [Warning], [Error] and [Fatal] logs the
    template itself, byte for byte, when it is called with no operand, and
    logs [Sprintf] of the template and the operands when there is at least
    one. *)
Theorem emit_template_verbatim_without_operands m msg a v site l w :
  level l <= severity m ->
  emit m msg [] site l w = finish m (log (severity m) msg site l w) /\
  emit m msg (a :: v) site l w
  = finish m (log (severity m) (Sprintf msg (a :: v)) site l w) /\
  stdout (emit m msg [] site l w)
  = stdout w +:+ prefix (console m l) +:+ Format "15:04:05" (clock (clock_reads w))
      +:+ " " +:+ msg +:+ byte LF /\
  stdout (emit m msg (a :: v) site l w)
  = stdout w +:+ prefix (console m l) +:+ Format "15:04:05" (clock (clock_reads w))
      +:+ " " +:+ Sprintf msg (a :: v) +:+ byte LF.
Proof.
  intros Hle.
  pose proof (emit_passes m msg [] site l w Hle) as E0.
  pose proof (emit_passes m msg (a :: v) site l w Hle) as E1.
  change (fullMsg msg []) with msg in E0.
  change (fullMsg msg (a :: v)) with (Sprintf msg (a :: v)) in E1.
  repeat split; try assumption.
  - rewrite E0, finish_stdout. apply log_stdout, Hle.
  - rewrite E1, finish_stdout. apply log_stdout, Hle.
Qed.

(** ** Opening and closing *)

Lemma File_Close_files f w : files (snd (File_Close f w)) = files w.
Proof.
  unfold File_Close. destruct (fds w !! f) as [fl|]; [destruct (fopen fl)|]; reflexivity.
Qed.

Lemma File_Close_stdout f w : stdout (snd (File_Close f w)) = stdout w.
Proof.
  unfold File_Close. destruct (fds w !! f) as [fl|]; [destruct (fopen fl)|]; reflexivity.
Qed.

Lemma File_Close_exited f w : exited (snd (File_Close f w)) = exited w.
Proof.
  unfold File_Close. destruct (fds w !! f) as [fl|]; [destruct (fopen fl)|]; reflexivity.
Qed.

Lemma File_Close_clock_reads f w : clock_reads (snd (File_Close f w)) = clock_reads w.
Proof.
  unfold File_Close. destruct (fds w !! f) as [fl|]; [destruct (fopen fl)|]; reflexivity.
Qed.

Lemma File_Close_length f w : length (fds (snd (File_Close f w))) = length (fds w).
Proof.
  unfold File_Close. destruct (fds w !! f) as [fl|]; [destruct (fopen fl)|];
    simpl; rewrite ?length_insert; reflexivity.
Qed.

(** Whatever [Close] reports, the file object is closed afterwards. *)
Lemma File_Close_closed f w :
  match fds (snd (File_Close f w)) !! f with
  | Some fl => fopen fl
  | None => false
  end = false.
Proof.
  unfold File_Close. destruct (fds w !! f) as [fl|] eqn:Hf.
  - destruct (fopen fl) eqn:Ho; simpl.
    + rewrite list_lookup_insert_eq; [reflexivity|].
      apply lookup_lt_Some in Hf. exact Hf.
    + rewrite Hf. exact Ho.
  - simpl. rewrite Hf. reflexivity.
Qed.

(** A closed file object stays closed when another one is closed. *)
Lemma File_Close_keeps_closed f g w :
  match fds w !! g with Some fl => fopen fl | None => false end = false ->
  match fds (snd (File_Close f w)) !! g with Some fl => fopen fl | None => false end = false.
Proof.
  intros Hg. destruct (decide (f = g)) as [->|Hne]; [apply File_Close_closed|].
  unfold File_Close. destruct (fds w !! f) as [fl|]; [destruct (fopen fl)|]; simpl; try exact Hg.
  rewrite list_lookup_insert_ne; [exact Hg|exact Hne].
Qed.

Lemma File_Close_open f fl w :
  fds w !! f = Some fl -> fopen fl = true ->
  File_Close f w
  = (close_error f, set_fds (fun fs => <[f := {| fname := fname fl; fopen := false |}]> fs) w).
Proof. intros Hf Ho. unfold File_Close. rewrite Hf, Ho. reflexivity. Qed.

Lemma OpenFile_fails path err w :
  open_error path = Some err -> OpenFile path w = (inr err, w).
Proof. intros He. unfold OpenFile. rewrite He. reflexivity. Qed.

Lemma OpenFile_succeeds path w :
  open_error path = None ->
  exists w', OpenFile path w = (inl (length (fds w)), w') /\
    fds w' = fds w ++ [{| fname := path; fopen := true |}] /\
    files w' = <[path := default "" (files w !! path)]> (files w) /\
    stdout w' = stdout w /\ exited w' = exited w.
Proof.
  intros He. unfold OpenFile. rewrite He. eexists. split; [reflexivity|].
  repeat split.
Qed.

(** ** Calls on a logger without an open file *)

Lemma emit_files_inactive m msg v site l w :
  active_sink l w = false -> files (emit m msg v site l w) = files w.
Proof.
  intros Hin.
  destruct m; simpl; unfold Debug, Info, Warning, Error, Fatal;
    match goal with |- context [if ?g then _ else _] => destruct g end;
    try reflexivity; simpl; apply log_files_inactive, Hin.
Qed.

Lemma emit_fds m msg v site l w : fds (emit m msg v site l w) = fds w.
Proof.
  destruct m; simpl; unfold Debug, Info, Warning, Error, Fatal;
    match goal with |- context [if ?g then _ else _] => destruct g end;
    try reflexivity; simpl; apply log_fds.
Qed.

Lemma emit_stdout m msg v site l w :
  level l <= severity m ->
  stdout (emit m msg v site l w)
  = stdout w +:+ prefix (console m l) +:+ Format "15:04:05" (clock (clock_reads w))
      +:+ " " +:+ fullMsg msg v +:+ byte LF.
Proof.
  intros Hle. rewrite (emit_passes _ _ _ _ _ _ Hle), finish_stdout.
  apply log_stdout, Hle.
Qed.

Lemma WithTimeFormat_logFile layout l : logFile (WithTimeFormat layout l) = logFile l.
Proof. unfold WithTimeFormat. destruct (negb (layout =? "")%string); reflexivity. Qed.

Lemma call_inactive c l w :
  is_EnableFile c = false -> active_sink l w = false ->
  files (snd (call c (l, w))) = files w /\
  active_sink (fst (call c (l, w))) (snd (call c (l, w))) = false.
Proof.
  intros Hc Hin. destruct c; try discriminate Hc; simpl.
  - split; [apply emit_files_inactive, Hin|].
    unfold active_sink in *. rewrite emit_fds. exact Hin.
  - split; [reflexivity|exact Hin].
  - split; [reflexivity|exact Hin].
  - split; [reflexivity|]. unfold active_sink in *.
    rewrite WithTimeFormat_logFile. exact Hin.
  - split; [reflexivity|exact Hin].
  - split; [reflexivity|exact Hin].
  - unfold DisableFile. destruct (logFile l) as [f|] eqn:Hf.
    + pose proof (File_Close_files f w) as Hfiles.
      destruct (File_Close f w) as [r w']. simpl in *. split; [exact Hfiles|reflexivity].
    + simpl. split; [reflexivity|exact Hin].
  - unfold Close. unfold active_sink in *. destruct (logFile l) as [f|] eqn:Hf.
    + split; [apply File_Close_files|apply File_Close_closed].
    + simpl. split; reflexivity.
Qed.

Lemma run_cons c cs l w :
  run (c :: cs) (l, w)
  = match exited w with Some _ => (l, w) | None => run cs (call c (l, w)) end.
Proof. reflexivity. Qed.

Lemma run_inactive cs : forall l w,
  no_EnableFile cs = true -> active_sink l w = false ->
  files (snd (run cs (l, w))) = files w /\
  active_sink (fst (run cs (l, w))) (snd (run cs (l, w))) = false.
Proof.
  induction cs as [|c cs IH]; intros l w Hcs Hin.
  - split; [reflexivity|exact Hin].
  - rewrite run_cons. destruct (exited w); [split; [reflexivity|exact Hin]|].
    apply andb_true_iff in Hcs as [Hc Hcs]. fold (no_EnableFile cs) in Hcs.
    apply negb_true_iff in Hc.
    destruct (call_inactive c l w Hc Hin) as [Hfiles Hin'].
    destruct (call c (l, w)) as [l' w'].
    destruct (IH l' w' Hcs Hin') as [Hfiles' Hin''].
    split; [rewrite Hfiles'; exact Hfiles|exact Hin''].
Qed.

Lemma call_no_file c l w :
  is_EnableFile c = false -> logFile l = None ->
  logFile (fst (call c (l, w))) = None.
Proof.
  intros Hc Hn. destruct c; try discriminate Hc; simpl; try exact Hn.
  - rewrite WithTimeFormat_logFile. exact Hn.
  - unfold DisableFile. rewrite Hn. exact Hn.
Qed.

Lemma run_no_file cs : forall l w,
  no_EnableFile cs = true -> logFile l = None ->
  logFile (fst (run cs (l, w))) = None.
Proof.
  induction cs as [|c cs IH]; intros l w Hcs Hn; [exact Hn|].
  rewrite run_cons. destruct (exited w); [exact Hn|].
  apply andb_true_iff in Hcs as [Hc Hcs]. fold (no_EnableFile cs) in Hcs.
  apply negb_true_iff in Hc.
  pose proof (call_no_file c l w Hc Hn) as Hn'.
  destruct (call c (l, w)) as [l' w']. apply IH; assumption.
Qed.

(** ** Shutdown and the file controls *)

(** What [Close] does to the world: with a nil field nothing, reporting
    success; with an open file object it closes that object and reports
    what closing reported; in every case no open file object is in the
    field afterwards.  The field itself is not touched. *)
Lemma Close_leaves_no_open_file l w :
  (logFile l = None -> Close l w = (None, w)) /\
  (forall f fl, logFile l = Some f -> fds w !! f = Some fl -> fopen fl = true ->
     fst (Close l w) = close_error f /\
     fds (snd (Close l w)) = <[f := {| fname := fname fl; fopen := false |}]> (fds w) /\
     files (snd (Close l w)) = files w /\
     stdout (snd (Close l w)) = stdout w) /\
  active_sink l (snd (Close l w)) = false.
Proof.
  split; [|split].
  - intros Hn. unfold Close. rewrite Hn. reflexivity.
  - intros f fl Hf Hfl Ho. unfold Close. rewrite Hf.
    split; [rewrite (File_Close_open f fl w Hfl Ho); reflexivity|].
    split; [rewrite (File_Close_open f fl w Hfl Ho); reflexivity|].
    split; [apply File_Close_files|apply File_Close_stdout].
  - unfold Close, active_sink. destruct (logFile l) as [f|]; [|reflexivity].
    apply File_Close_closed.
Qed.

Lemma EnableFile_fails path err l w :
  open_error path = Some err ->
  EnableFile path l w
  = (Some err, (l, match logFile l with Some f => snd (File_Close f w) | None => w end)).
Proof. intros He. unfold EnableFile. rewrite (OpenFile_fails _ _ _ He). reflexivity. Qed.

(** What can be observed on the sinks after an [EnableFile] whose open
    fails: the error is returned, no open file object is in the field, and
    as long as [EnableFile] is not called again no call changes any file,
    while every emission that passes the threshold prints its line on the
    console. *)
Lemma EnableFile_failure_leaves_console_only path err l w :
  open_error path = Some err ->
  let r := EnableFile path l w in
  fst r = Some err /\
  active_sink (fst (snd r)) (snd (snd r)) = false /\
  files (snd (snd r)) = files w /\
  stdout (snd (snd r)) = stdout w /\
  forall cs, no_EnableFile cs = true ->
    let s := run cs (snd r) in
    files (snd s) = files w /\
    active_sink (fst s) (snd s) = false /\
    forall m msg v site,
      files (emit m msg v site (fst s) (snd s)) = files w /\
      (level (fst s) <= severity m ->
       stdout (emit m msg v site (fst s) (snd s))
       = stdout (snd s) +:+ prefix (console m (fst s))
           +:+ Format "15:04:05" (clock (clock_reads (snd s)))
           +:+ " " +:+ fullMsg msg v +:+ byte LF).
Proof.
  intros He r. subst r. rewrite (EnableFile_fails _ _ _ _ He). simpl fst. simpl snd.
  set (w' := match logFile l with Some f => snd (File_Close f w) | None => w end).
  assert (Hin : active_sink l w' = false).
  { subst w'. unfold active_sink. destruct (logFile l) as [f|]; [|reflexivity].
    apply File_Close_closed. }
  assert (Hfiles : files w' = files w).
  { subst w'. destruct (logFile l) as [f|]; [apply File_Close_files|reflexivity]. }
  assert (Hout : stdout w' = stdout w).
  { subst w'. destruct (logFile l) as [f|]; [apply File_Close_stdout|reflexivity]. }
  split; [reflexivity|]. split; [exact Hin|]. split; [exact Hfiles|]. split; [exact Hout|].
  intros cs Hcs s.
  destruct (run_inactive cs l w' Hcs Hin) as [E1 E2]. fold s in E1, E2.
  split; [rewrite E1; exact Hfiles|]. split; [exact E2|].
  intros m msg v site. split.
  - rewrite (emit_files_inactive _ _ _ _ _ _ E2), E1. exact Hfiles.
  - intros Hle. apply emit_stdout, Hle.
Qed.

Lemma DisableFile_logFile l w : logFile (fst (DisableFile l w)) = None.
Proof.
  unfold DisableFile. destruct (logFile l) as [f|] eqn:Hf.
  - destruct (File_Close f w). reflexivity.
  - exact Hf.
Qed.

Lemma DisableFile_files l w : files (snd (DisableFile l w)) = files w.
Proof.
  unfold DisableFile. destruct (logFile l) as [f|]; [|reflexivity].
  pose proof (File_Close_files f w). destruct (File_Close f w). assumption.
Qed.

Lemma DisableFile_stdout l w : stdout (snd (DisableFile l w)) = stdout w.
Proof.
  unfold DisableFile. destruct (logFile l) as [f|]; [|reflexivity].
  pose proof (File_Close_stdout f w). destruct (File_Close f w). assumption.
Qed.

Lemma DisableFile_clock_reads l w : clock_reads (snd (DisableFile l w)) = clock_reads w.
Proof.
  unfold DisableFile. destruct (logFile l) as [f|]; [|reflexivity].
  pose proof (File_Close_clock_reads f w). destruct (File_Close f w). assumption.
Qed.

Lemma DisableFile_fields l w :
  level (fst (DisableFile l w)) = level l /\
  forall m, console m (fst (DisableFile l w)) = console m l.
Proof.
  unfold DisableFile. destruct (logFile l) as [f|].
  - destruct (File_Close f w). split; [reflexivity|]. intros m; destruct m; reflexivity.
  - split; reflexivity.
Qed.

Lemma EnableFile_succeeds path l w :
  open_error path = None ->
  exists f w',
    EnableFile path l w = (None, (set_logFile (Some f) l, w')) /\
    fds w' !! f = Some {| fname := path; fopen := true |}.
Proof.
  intros He. unfold EnableFile.
  set (w1 := match logFile l with Some f => snd (File_Close f w) | None => w end).
  destruct (OpenFile_succeeds path w1 He) as (w' & E & Hfds & _).
  rewrite E. exists (length (fds w1)), w'. split; [reflexivity|].
  rewrite Hfds. rewrite lookup_app_r; [|lia].
  replace (length (fds w1) - length (fds w1))%nat with 0%nat by lia. reflexivity.
Qed.

(** C8: [DisableFile] on a logger without a file object changes nothing,
    and calling it twice is calling it once; after [DisableFile] the
    logger has no file object, and as long as [EnableFile] is not called no
    later call changes any file, while every emission that passes the
    threshold prints the console line it would print otherwise; a later
    [EnableFile] that succeeds installs an open file on its path. *)
Theorem DisableFile_idempotent_and_silences_file l w :
  (logFile l = None -> DisableFile l w = (l, w)) /\
  DisableFile (fst (DisableFile l w)) (snd (DisableFile l w)) = DisableFile l w /\
  logFile (fst (DisableFile l w)) = None /\
  files (snd (DisableFile l w)) = files w /\
  (forall m msg v site,
     stdout (emit m msg v site (fst (DisableFile l w)) (snd (DisableFile l w)))
     = stdout (emit m msg v site l w)) /\
  forall cs, no_EnableFile cs = true ->
    let s := run cs (DisableFile l w) in
    logFile (fst s) = None /\
    files (snd s) = files w /\
    (forall m msg v site,
       files (emit m msg v site (fst s) (snd s)) = files w /\
       (level (fst s) <= severity m ->
        stdout (emit m msg v site (fst s) (snd s))
        = stdout (snd s) +:+ prefix (console m (fst s))
            +:+ Format "15:04:05" (clock (clock_reads (snd s)))
            +:+ " " +:+ fullMsg msg v +:+ byte LF)) /\
    (forall path, open_error path = None ->
       exists f w',
         EnableFile path (fst s) (snd s) = (None, (set_logFile (Some f) (fst s), w')) /\
         fds w' !! f = Some {| fname := path; fopen := true |}).
Proof.
  assert (Hnone : forall l0 w0, logFile l0 = None -> DisableFile l0 w0 = (l0, w0)).
  { intros l0 w0 Hn. unfold DisableFile. rewrite Hn. reflexivity. }
  split; [apply Hnone|].
  split.
  { rewrite (Hnone _ _ (DisableFile_logFile l w)). destruct (DisableFile l w); reflexivity. }
  split; [apply DisableFile_logFile|].
  split; [apply DisableFile_files|].
  split.
  { intros m msg v site.
    destruct (DisableFile_fields l w) as [Hlvl Hcon].
    destruct (Z_lt_le_dec (severity m) (level l)) as [Hlt|Hle].
    - rewrite !emit_filtered; [apply DisableFile_stdout|exact Hlt|].
      rewrite Hlvl. exact Hlt.
    - rewrite !emit_stdout; [|exact Hle|rewrite Hlvl; exact Hle].
      rewrite DisableFile_stdout, DisableFile_clock_reads, Hcon. reflexivity. }
  intros cs Hcs s. subst s.
  pose proof (DisableFile_logFile l w) as Hn.
  pose proof (DisableFile_files l w) as Hfiles.
  destruct (DisableFile l w) as [l1 w1]. simpl in Hn, Hfiles.
  assert (Hin : active_sink l1 w1 = false) by (unfold active_sink; rewrite Hn; reflexivity).
  destruct (run_inactive cs l1 w1 Hcs Hin) as [E1 E2].
  split; [apply run_no_file; assumption|].
  split; [rewrite E1; exact Hfiles|].
  split.
  - intros m msg v site. split.
    + rewrite (emit_files_inactive _ _ _ _ _ _ E2), E1. exact Hfiles.
    + intros Hle. apply emit_stdout, Hle.
  - intros path He. apply EnableFile_succeeds, He.
Qed.
(** ** The file record *)

Lemma emit_files_active m msg v site l w f fl :
  level l <= severity m ->
  logFile l = Some f -> fds w !! f = Some fl -> fopen fl = true ->
  files (emit m msg v site l w)
  = <[fname fl := default "" (files w !! fname fl)
        +:+ file_record l m (fullMsg msg v) site (clock (S (clock_reads w)))]> (files w).
Proof.
  intros Hle Hf Hfl Ho. rewrite (emit_passes _ _ _ _ _ _ Hle), finish_files.
  apply (log_files_active _ _ _ _ _ f fl); assumption.
Qed.

(** C6, as amended: in plain-text mode an emission that passes the
    threshold appends to the file of an open sink exactly the timestamp, a
    space, the bracketed severity, a space, the message, the caller in
    parentheses when caller reporting is on and the call site is known,
    and one line terminator; the console receives the prefix, the time of
    day, the message and one line terminator.  Each sink thus receives one
    line terminator more than the texts it is given contain: one line
    when they contain none. *)
Theorem plain_record_format m msg v site l w f fl :
  level l <= severity m ->
  logFile l = Some f -> fds w !! f = Some fl -> fopen fl = true ->
  jsonMode l = false ->
  let text := fullMsg msg v in
  let time := Format (timeFormat l) (clock (S (clock_reads w))) in
  let callerPart :=
    if withCaller l then
      match site with
      | Some (file, line) => " (" +:+ Base file +:+ ":" +:+ Itoa line +:+ ")"
      | None => ""
      end
    else "" in
  let record := time +:+ " [" +:+ name m +:+ "] " +:+ text +:+ callerPart +:+ byte LF in
  let timeOfDay := Format "15:04:05" (clock (clock_reads w)) in
  let line := prefix (console m l) +:+ timeOfDay +:+ " " +:+ text +:+ byte LF in
  files (emit m msg v site l w)
  = <[fname fl := default "" (files w !! fname fl) +:+ record]> (files w) /\
  stdout (emit m msg v site l w) = stdout w +:+ line /\
  count LF record = (count LF time + count LF text + count LF callerPart + 1)%nat /\
  count LF line
  = (count LF (prefix (console m l)) + count LF timeOfDay + count LF text + 1)%nat.
Proof.
  intros Hle Hf Hfl Ho Hj text time callerPart record timeOfDay line.
  split; [|split; [|split]].
  - rewrite (emit_files_active m msg v site l w f fl Hle Hf Hfl Ho).
    replace (file_record l m (fullMsg msg v) site (clock (S (clock_reads w))))
      with record; [reflexivity|].
    unfold file_record, callerText. rewrite Hj.
    subst record text time callerPart.
    destruct (withCaller l); [destruct site as [[file line0]|]|];
      rewrite ?eqb_app_colon; simpl String.eqb; cbv iota;
      unfold byte; str_norm; reflexivity.
  - apply emit_stdout, Hle.
  - subst record. rewrite !count_app.
    assert (E : count LF (name m) = 0%nat) by (destruct m; reflexivity).
    rewrite E. simpl. lia.
  - subst line. rewrite !count_app. simpl. lia.
Qed.

Lemma sortKeys_three (a b c : string) :
  Json.sortKeys [("time", a); ("level", b); ("msg", c)]
  = [("level", b); ("msg", c); ("time", a)].
Proof. reflexivity. Qed.

Lemma sortKeys_four (a b c d : string) :
  Json.sortKeys ([("time", a); ("level", b); ("msg", c)] ++ [("caller", d)])
  = [("caller", d); ("level", b); ("msg", c); ("time", a)].
Proof. reflexivity. Qed.

Lemma quoted_no_LF s : count LF s = 0%nat -> count LF (Json.quoted s) = 0%nat.
Proof. intros E. unfold Json.quoted. rewrite !count_app, E. reflexivity. Qed.

(** C7: in JSON mode an emission of any of the five severities that
    passes the threshold appends to the file of an open sink one object
    with the members [level], [msg] and [time], preceded by [caller] when
    caller reporting is on and the call site is known, followed by a line
    terminator; [level] is the bare name of the severity; the record holds
    no other line terminator; and every [<], [>] and [&] of the message
    stands unescaped in the encoded message. *)
Theorem json_record_format m msg v site l w f fl :
  level l <= severity m ->
  logFile l = Some f -> fds w !! f = Some fl -> fopen fl = true ->
  jsonMode l = true ->
  let text := fullMsg msg v in
  let time := Format (timeFormat l) (clock (S (clock_reads w))) in
  let callerMember :=
    if withCaller l then
      match site with
      | Some (file, line) =>
        Json.quoted "caller" +:+ ":"
          +:+ Json.quoted (Json.escape (Base file +:+ ":" +:+ Itoa line)) +:+ ","
      | None => ""
      end
    else "" in
  let record :=
    "{" +:+ callerMember
        +:+ Json.quoted "level" +:+ ":" +:+ Json.quoted (name m) +:+ ","
        +:+ Json.quoted "msg" +:+ ":" +:+ Json.quoted (Json.escape text) +:+ ","
        +:+ Json.quoted "time" +:+ ":" +:+ Json.quoted (Json.escape time)
        +:+ "}" +:+ byte LF in
  files (emit m msg v site l w)
  = <[fname fl := default "" (files w !! fname fl) +:+ record]> (files w) /\
  count LF record = 1%nat /\
  (forall pre c post,
     text = pre +:+ String c post ->
     c = "<"%char \/ c = ">"%char \/ c = "&"%char ->
     Json.escape text = Json.escape pre +:+ String c (Json.escape post)).
Proof.
  intros Hle Hf Hfl Ho Hj text time callerMember record.
  assert (Ename : Json.appendString (name m) = Json.quoted (name m))
    by (destruct m; reflexivity).
  split; [|split].
  - rewrite (emit_files_active m msg v site l w f fl Hle Hf Hfl Ho).
    replace (file_record l m (fullMsg msg v) site (clock (S (clock_reads w))))
      with record; [reflexivity|].
    unfold file_record, callerText. rewrite Hj.
    subst record text time callerMember. unfold Json.Encode.
    destruct (withCaller l); [destruct site as [[file line0]|]|];
      rewrite ?eqb_app_colon; simpl String.eqb; cbv iota;
      rewrite ?sortKeys_four, ?app_nil_r, ?sortKeys_three;
      cbn [Json.members]; rewrite Ename;
      change (Json.appendString "caller") with (Json.quoted "caller");
      change (Json.appendString "level") with (Json.quoted "level");
      change (Json.appendString "msg") with (Json.quoted "msg");
      change (Json.appendString "time") with (Json.quoted "time");
      unfold Json.appendString; str_norm; reflexivity.
  - subst record callerMember.
    assert (En : count LF (name m) = 0%nat) by (destruct m; reflexivity).
    destruct (withCaller l); [destruct site as [[file line0]|]|];
      rewrite !count_app, !quoted_no_LF; try reflexivity;
      try apply escape_no_LF; exact En.
  - intros pre c post -> Hc. apply escape_keeps_markup, Hc.
Qed.
(** ** The invariant of the file-sink field *)

Lemma NewLogger_sink_ok path w l w' :
  NewLogger path w = (inl l, w') -> sink_ok l w'.
Proof.
  unfold NewLogger, OpenFile. destruct (open_error path); [discriminate|].
  set (w1 := set_fds _ _).
  assert (Hfd : forall w2, fds w2 = fds w1 ->
            fds w2 !! length (fds w) = Some {| fname := path; fopen := true |}).
  { intros w2 ->. subst w1. simpl. rewrite lookup_app_r; [|lia].
    replace (length (fds w) - length (fds w))%nat with 0%nat by lia. reflexivity. }
  intros E. inversion E; subst. unfold sink_ok. simpl.
  exists {| fname := path; fopen := true |}. split; [|reflexivity]. apply Hfd.
  destruct (negb (Getenv "FORCE_COLOR" =? "")%string); [reflexivity|].
  destruct (negb (Getenv "NO_COLOR" =? "")%string); reflexivity.
Qed.

(** Every call other than [Close] and an [EnableFile] whose open fails
    keeps the field either nil or on an open file object. *)
Lemma sink_ok_call c l w :
  sink_ok l w -> c <> CClose ->
  (forall path, c = CEnableFile path -> open_error path = None) ->
  sink_ok (fst (call c (l, w))) (snd (call c (l, w))).
Proof.
  intros Hok Hc Hopen. destruct c; simpl; try exact Hok; try congruence.
  - unfold sink_ok in *. rewrite emit_fds. exact Hok.
  - unfold sink_ok in *. rewrite WithTimeFormat_logFile. exact Hok.
  - unfold sink_ok. rewrite DisableFile_logFile. exact I.
  - destruct (EnableFile_succeeds path l w (Hopen path eq_refl)) as (f & w' & E & Hf).
    rewrite E. unfold sink_ok. simpl. eexists. split; [exact Hf|reflexivity].
Qed.

(** ** The field after a close that does not reset it *)

Lemma File_Close_caller_lookups f w :
  caller_lookups (snd (File_Close f w)) = caller_lookups w.
Proof.
  unfold File_Close. destruct (fds w !! f) as [fl|]; [destruct (fopen fl)|]; reflexivity.
Qed.

Lemma emit_counters m msg v site l w :
  level l <= severity m ->
  clock_reads (emit m msg v site l w)
  = (clock_reads w + match logFile l with Some _ => 2 | None => 1 end)%nat /\
  caller_lookups (emit m msg v site l w)
  = (caller_lookups w
     + match logFile l with
       | Some _ => if withCaller l then 1 else 0
       | None => 0
       end)%nat.
Proof.
  intros Hle. rewrite (emit_passes _ _ _ _ _ _ Hle).
  destruct (log_counters m (fullMsg msg v) site l w Hle) as [Hc Hr].
  destruct m; simpl finish; split; assumption.
Qed.

(** C3: what [EnableFile] does when the open fails on a logger that holds an
    open file.  It returns the error of the open, and it has closed the file
    object the logger held; but it leaves that closed object in the field
    instead of nil, so the logger is not left without a file sink: a later
    emission that passes the threshold does not stop at the nil test, it
    asks for the caller when caller reporting is on and reads the clock a
    second time for a record that the closed file then refuses.  No file
    changes and the console line is printed.  After [DisableFile], which
    resets the field, the same emission stops at the nil test, with one
    clock reading and no caller lookup. *)
Theorem EnableFile_failure_keeps_closed_file_in_field
    path err l w f fl m msg v site :
  open_error path = Some err ->
  logFile l = Some f -> fds w !! f = Some fl -> fopen fl = true ->
  level l <= severity m ->
  let r := EnableFile path l w in
  let l' := fst (snd r) in
  let w' := snd (snd r) in
  fst r = Some err /\
  fds w' !! f = Some {| fname := fname fl; fopen := false |} /\
  logFile l' = Some f /\
  ~ sink_ok l' w' /\
  clock_reads (emit m msg v site l' w') = (clock_reads w + 2)%nat /\
  caller_lookups (emit m msg v site l' w')
  = (caller_lookups w + if withCaller l then 1 else 0)%nat /\
  files (emit m msg v site l' w') = files w /\
  stdout (emit m msg v site l' w')
  = stdout w +:+ prefix (console m l) +:+ Format "15:04:05" (clock (clock_reads w))
      +:+ " " +:+ fullMsg msg v +:+ byte LF /\
  clock_reads (emit m msg v site (fst (DisableFile l w)) (snd (DisableFile l w)))
  = (clock_reads w + 1)%nat /\
  caller_lookups (emit m msg v site (fst (DisableFile l w)) (snd (DisableFile l w)))
  = caller_lookups w.
Proof.
  intros He Hf Hfl Ho Hle r l' w'. subst l' w' r.
  rewrite (EnableFile_fails path err l w He). simpl fst. simpl snd. rewrite Hf.
  pose proof (File_Close_open f fl w Hfl Ho) as Hclose.
  assert (Hlt : (f < length (fds w))%nat) by (apply lookup_lt_Some in Hfl; exact Hfl).
  set (w' := snd (File_Close f w)).
  assert (Hfd : fds w' !! f = Some {| fname := fname fl; fopen := false |}).
  { subst w'. rewrite Hclose. simpl. apply list_lookup_insert_eq. exact Hlt. }
  assert (Hin : active_sink l w' = false).
  { unfold active_sink. rewrite Hf, Hfd. reflexivity. }
  assert (Hclk : clock_reads w' = clock_reads w) by apply File_Close_clock_reads.
  assert (Hcal : caller_lookups w' = caller_lookups w) by apply File_Close_caller_lookups.
  destruct (emit_counters m msg v site l w' Hle) as [Hc Hr]. rewrite Hf in Hc, Hr.
  split; [reflexivity|]. split; [exact Hfd|]. split; [reflexivity|].
  split.
  { unfold sink_ok. rewrite Hf. intros (fl' & Hfl' & Ho').
    rewrite Hfd in Hfl'. inversion Hfl'; subst. discriminate Ho'. }
  split; [rewrite Hc, Hclk; reflexivity|].
  split; [rewrite Hr, Hcal; reflexivity|].
  split.
  { rewrite (emit_files_inactive _ _ _ _ _ _ Hin). apply File_Close_files. }
  split.
  { rewrite (emit_stdout _ _ _ _ _ _ Hle), Hclk.
    subst w'. rewrite File_Close_stdout. reflexivity. }
  destruct (DisableFile_fields l w) as [Hlvl _].
  assert (Hle' : level (fst (DisableFile l w)) <= severity m) by (rewrite Hlvl; exact Hle).
  destruct (emit_counters m msg v site _ (snd (DisableFile l w)) Hle') as [Hc' Hr'].
  rewrite DisableFile_logFile in Hc', Hr'.
  rewrite Hc', Hr', DisableFile_clock_reads.
  split; [reflexivity|].
  unfold DisableFile. rewrite Hf.
  pose proof (File_Close_caller_lookups f w) as E. destruct (File_Close f w). simpl in *.
  rewrite E. lia.
Qed.

(** C5: what [Close] leaves behind on a logger that holds an open file.  It
    closes the file object and returns what the close reported, but the
    field still holds that object: the state is neither "no file sink" (the
    field is not nil) nor an open sink.  In that state [Close] is not a
    no-op that returns success: a second [Close] returns [ErrClosed].  With
    the field reset, as [DisableFile] leaves it, [Close] changes nothing and
    returns success. *)
Theorem Close_keeps_closed_file_in_field l w f fl :
  logFile l = Some f -> fds w !! f = Some fl -> fopen fl = true ->
  let w' := snd (Close l w) in
  fst (Close l w) = close_error f /\
  fds w' !! f = Some {| fname := fname fl; fopen := false |} /\
  ~ sink_ok l w' /\
  Close l w' = (Some ErrClosed, w') /\
  Close (fst (DisableFile l w)) (snd (DisableFile l w)) = (None, snd (DisableFile l w)).
Proof.
  intros Hf Hfl Ho w'. subst w'.
  assert (Hlt : (f < length (fds w))%nat) by (apply lookup_lt_Some in Hfl; exact Hfl).
  assert (E : Close l w
              = (close_error f,
                 set_fds (fun fs => <[f := {| fname := fname fl; fopen := false |}]> fs) w)).
  { unfold Close. rewrite Hf. apply File_Close_open; assumption. }
  rewrite E. simpl fst. simpl snd.
  set (w' := set_fds _ w).
  assert (Hfd : fds w' !! f = Some {| fname := fname fl; fopen := false |}).
  { subst w'. simpl. apply list_lookup_insert_eq. exact Hlt. }
  split; [reflexivity|]. split; [exact Hfd|].
  split.
  { unfold sink_ok. rewrite Hf. intros (fl' & Hfl' & Ho').
    rewrite Hfd in Hfl'. inversion Hfl'; subst. discriminate Ho'. }
  split.
  { unfold Close, File_Close. rewrite Hf, Hfd. reflexivity. }
  unfold Close. rewrite DisableFile_logFile. reflexivity.
Qed.

End LoggerFacts.

(** * The logger on the concrete platform *)

Example NewLogger_app_log : NewLogger "app.log" Host.start = (inl app_logger, app_world).
Proof. vm_compute. reflexivity. Qed.

(** C4: the invariant "the field is nil or holds an open file" does not
    survive every operation.  After [NewLogger("app.log")] it holds; an
    [EnableFile] on a path that cannot be opened closes the file object and
    keeps it in the field, and so does [Close]. *)
Theorem file_sink_field_keeps_closed_file :
  sink_ok app_logger app_world /\
  (let r := EnableFile "/nonexistent/x.log" app_logger app_world in
   fst r = Some "no such file or directory" /\
   logFile (fst (snd r)) = Some 0%nat /\
   fds (snd (snd r)) !! 0%nat = Some {| fname := "app.log"; fopen := false |} /\
   ~ sink_ok (fst (snd r)) (snd (snd r))) /\
  (let r := Close app_logger app_world in
   fst r = None /\
   logFile app_logger = Some 0%nat /\
   fds (snd r) !! 0%nat = Some {| fname := "app.log"; fopen := false |} /\
   ~ sink_ok app_logger (snd r)).
Proof.
  split; [|split].
  - exists app_file. split; reflexivity.
  - cbv zeta. repeat split.
    intros (fl & Hfl & Ho). vm_compute in Hfl. inversion Hfl; subst. discriminate Ho.
  - cbv zeta. repeat split.
    intros (fl & Hfl & Ho). vm_compute in Hfl. inversion Hfl; subst. discriminate Ho.
Qed.

(** What the closed file object left in the field entails: an emission
    after the failed [EnableFile] goes past the nil test, looks up the caller
    and reads the clock a second time for a record that the closed file
    refuses, where after [DisableFile] it stops at the nil test; and a second
    [Close] reports [ErrClosed]. *)
Example closed_file_object_in_field :
  (let r := EnableFile "/nonexistent/x.log" (WithCaller true app_logger) app_world in
   let w' := Info "late" [] (Some ("/src/main.go", 20)) (fst (snd r)) (snd (snd r)) in
   clock_reads w' = 2%nat /\ caller_lookups w' = 1%nat /\
   files w' !! "app.log" = Some "") /\
  (let s := DisableFile (WithCaller true app_logger) app_world in
   let w' := Info "late" [] (Some ("/src/main.go", 20)) (fst s) (snd s) in
   clock_reads w' = 1%nat /\ caller_lookups w' = 0%nat) /\
  fst (Close app_logger (snd (Close app_logger app_world))) = Some ErrClosed.
Proof. repeat split; vm_compute; reflexivity. Qed.

(** ** The theorems at concrete calls *)

Lemma emit_below_threshold_witness :
  severity MDebug < level (SetLevel INFO app_logger) /\
  emit MDebug "verbose %d" [VInt 7] (Some ("/src/main.go", 9))
    (SetLevel INFO app_logger) app_world = app_world.
Proof.
  assert (Hlt : severity MDebug < level (SetLevel INFO app_logger)) by (simpl; lia).
  split; [exact Hlt|].
  apply (emit_below_threshold MDebug _ _ _ (SetLevel INFO app_logger) app_world Hlt).
Defined.

Lemma Fatal_filtered_or_logs_and_exits_witness :
  Fatal "boom" [] None (SetLevel 5 app_logger) app_world = app_world /\
  exited (Fatal "boom" [] None app_logger app_world) = Some 1.
Proof.
  split.
  - apply (Fatal_filtered_or_logs_and_exits "boom" [] None (SetLevel 5 app_logger) app_world).
    simpl. lia.
  - apply (Fatal_filtered_or_logs_and_exits "boom" [] None app_logger app_world).
    simpl. lia.
Defined.

Lemma DisableFile_idempotent_and_silences_file_witness :
  no_EnableFile [CEmit MInfo "Ready!" [] None; CClose; CDisableFile] = true /\
  files (snd (run [CEmit MInfo "Ready!" [] None; CClose; CDisableFile]
                  (DisableFile app_logger app_world)))
  = files app_world.
Proof.
  split; [reflexivity|].
  destruct (DisableFile_idempotent_and_silences_file app_logger app_world)
    as (_ & _ & _ & _ & _ & Hrun).
  destruct (Hrun [CEmit MInfo "Ready!" [] None; CClose; CDisableFile] eq_refl)
    as (_ & Hfiles & _).
  exact Hfiles.
Defined.

Lemma WithTimeFormat_empty_ignored_witness :
  WithTimeFormat "" app_logger = app_logger /\
  timeFormat (WithTimeFormat "15:04" app_logger) = "15:04".
Proof.
  split.
  - apply (WithTimeFormat_empty_ignored app_logger "").
  - apply (WithTimeFormat_empty_ignored app_logger "15:04"). discriminate.
Defined.

Lemma emit_template_verbatim_without_operands_witness :
  level app_logger <= severity MInfo /\
  stdout (emit MInfo "load 100%%" [] None app_logger app_world)
  = "[INFO] 12:00:00 load 100%%" +:+ byte LF /\
  stdout (emit MInfo "load %d%%" [VInt 100] None app_logger app_world)
  = "[INFO] 12:00:00 load 100%" +:+ byte LF.
Proof.
  assert (Hle : level app_logger <= severity MInfo) by (simpl; lia).
  split; [exact Hle|].
  destruct (emit_template_verbatim_without_operands
              MInfo "load 100%%" (VInt 100) [] None app_logger app_world Hle)
    as (_ & _ & H0 & _).
  destruct (emit_template_verbatim_without_operands
              MInfo "load %d%%" (VInt 100) [] None app_logger app_world Hle)
    as (_ & _ & _ & H1).
  split; [rewrite H0|rewrite H1]; vm_compute; reflexivity.
Defined.

Lemma plain_record_format_witness :
  level (WithCaller true app_logger) <= severity MInfo /\
  files (emit MInfo "Hello from YagaLog %d" [VInt 1] (Some ("/src/main.go", 12))
           (WithCaller true app_logger) app_world) !! "app.log"
  = Some ("2025-10-30 12:00:01 [INFO] Hello from YagaLog 1 (main.go:12)" +:+ byte LF).
Proof.
  assert (Hle : level (WithCaller true app_logger) <= severity MInfo) by (simpl; lia).
  split; [exact Hle|].
  destruct (plain_record_format
              MInfo "Hello from YagaLog %d" [VInt 1] (Some ("/src/main.go", 12))
              (WithCaller true app_logger) app_world 0%nat app_file
              Hle eq_refl eq_refl eq_refl eq_refl) as (Hfiles & _).
  rewrite Hfiles. vm_compute. reflexivity.
Defined.

Lemma json_record_format_witness :
  level (WithJSON app_logger) <= severity MWarning /\
  files (emit MWarning "a<b && b>c" [] None (WithJSON app_logger) app_world) !! "app.log"
  = Some ("{" +:+ Json.quoted "level" +:+ ":" +:+ Json.quoted "WARNING" +:+ ","
              +:+ Json.quoted "msg" +:+ ":" +:+ Json.quoted "a<b && b>c" +:+ ","
              +:+ Json.quoted "time" +:+ ":" +:+ Json.quoted "2025-10-30 12:00:01"
              +:+ "}" +:+ byte LF).
Proof.
  assert (Hle : level (WithJSON app_logger) <= severity MWarning) by (simpl; lia).
  split; [exact Hle|].
  destruct (json_record_format
              MWarning "a<b && b>c" [] None (WithJSON app_logger) app_world 0%nat app_file
              Hle eq_refl eq_refl eq_refl eq_refl) as (Hfiles & _).
  rewrite Hfiles. vm_compute. reflexivity.
Defined.

Lemma EnableFile_failure_keeps_closed_file_in_field_witness :
  open_error "/nonexistent/x.log" = Some "no such file or directory" /\
  logFile (fst (snd (EnableFile "/nonexistent/x.log" (WithCaller true app_logger) app_world)))
  = Some 0%nat /\
  clock_reads
    (emit MInfo "late" [] (Some ("/src/main.go", 20))
       (fst (snd (EnableFile "/nonexistent/x.log" (WithCaller true app_logger) app_world)))
       (snd (snd (EnableFile "/nonexistent/x.log" (WithCaller true app_logger) app_world))))
  = (clock_reads app_world + 2)%nat.
Proof.
  assert (Ho : open_error "/nonexistent/x.log" = Some "no such file or directory")
    by reflexivity.
  assert (Hle : level (WithCaller true app_logger) <= severity MInfo) by (simpl; lia).
  split; [exact Ho|].
  destruct (EnableFile_failure_keeps_closed_file_in_field
              "/nonexistent/x.log" "no such file or directory"
              (WithCaller true app_logger) app_world 0%nat app_file
              MInfo "late" [] (Some ("/src/main.go", 20))
              Ho eq_refl eq_refl eq_refl Hle)
    as (_ & _ & Hfield & _ & Hclock & _).
  split; [exact Hfield|exact Hclock].
Defined.

Lemma Close_keeps_closed_file_in_field_witness :
  fds app_world !! 0%nat = Some app_file /\
  Close app_logger (snd (Close app_logger app_world))
  = (Some ErrClosed, snd (Close app_logger app_world)).
Proof.
  split; [reflexivity|].
  destruct (Close_keeps_closed_file_in_field app_logger app_world 0%nat app_file
              eq_refl eq_refl eq_refl) as (_ & _ & _ & Htwice & _).
  exact Htwice.
Defined.

(** C6 as the specification words it fails on a message that holds a line
    terminator: [Info("disk\n")] puts two line terminators on the console,
    which had been empty, and the file record ends with two. *)
Lemma message_with_line_terminator_is_not_one_line :
  stdout (Info ("disk" +:+ byte LF) [] None app_logger app_world)
  = "[INFO] 12:00:00 disk" +:+ byte LF +:+ byte LF /\
  count LF (stdout (Info ("disk" +:+ byte LF) [] None app_logger app_world)) <> 1%nat /\
  files (Info ("disk" +:+ byte LF) [] None app_logger app_world) !! "app.log"
  = Some ("2025-10-30 12:00:01 [INFO] disk" +:+ byte LF +:+ byte LF).
Proof.
  split; [vm_compute; reflexivity|].
  split; [vm_compute; discriminate|].
  vm_compute. reflexivity.
Qed.

(** The quick start of the README, run from a fresh process. *)
Example quick_start :
  let s := run [CEmit MInfo "Hello from YagaLog %d" [VInt 1] None;
                CEmit MWarning "Be careful" [] None;
                CEmit MError "Oops: %s" [VString "something went wrong"] None;
                CClose]
               (app_logger, app_world) in
  stdout (snd s)
  = "[INFO] 12:00:00 Hello from YagaLog 1" +:+ byte LF
    +:+ "[WARNING] 12:00:02 Be careful" +:+ byte LF
    +:+ "[ERROR] 12:00:04 Oops: something went wrong" +:+ byte LF /\
  files (snd s) !! "app.log"
  = Some ("2025-10-30 12:00:01 [INFO] Hello from YagaLog 1" +:+ byte LF
          +:+ "2025-10-30 12:00:03 [WARNING] Be careful" +:+ byte LF
          +:+ "2025-10-30 12:00:05 [ERROR] Oops: something went wrong" +:+ byte LF).
Proof. split; vm_compute; reflexivity. Qed.

(** * Beyond the sinks of one emission: construction, settings, programs *)

Section ClientFacts.

Context `{Platform}.

(** ** Construction *)

Lemma NewLogger_succeeds path w :
  open_error path = None ->
  exists l w',
    NewLogger path w = (inl l, w') /\
    level l = DEBUG /\ timeFormat l = "2006-01-02 15:04:05" /\
    withCaller l = false /\ jsonMode l = false /\
    logFile l = Some (length (fds w)) /\
    fds w' = fds w ++ [{| fname := path; fopen := true |}] /\
    files w' = <[path := default "" (files w !! path)]> (files w) /\
    stdout w' = stdout w /\ exited w' = exited w /\
    clock_reads w' = clock_reads w.
Proof.
  intros He. unfold NewLogger, OpenFile. rewrite He.
  eexists _, _. split; [reflexivity|].
  destruct (negb (Getenv "FORCE_COLOR" =? "")%string);
    [|destruct (negb (Getenv "NO_COLOR" =? "")%string)]; repeat split.
Qed.

(** [NewLogger] either fails with the error of the open and leaves the
    world as it was (the colour environment is not looked at), or returns a
    logger at threshold [DEBUG] with the default time format, caller
    reporting and JSON mode off and a new open file object on the path; the
    file keeps the content it had, or is created empty, and nothing is
    printed. *)
Theorem NewLogger_result path w :
  match open_error path with
  | Some err => NewLogger path w = (inr err, w)
  | None =>
    exists l w',
      NewLogger path w = (inl l, w') /\
      level l = DEBUG /\ timeFormat l = "2006-01-02 15:04:05" /\
      withCaller l = false /\ jsonMode l = false /\
      logFile l = Some (length (fds w)) /\
      fds w' = fds w ++ [{| fname := path; fopen := true |}] /\
      files w' = <[path := default "" (files w !! path)]> (files w) /\
      stdout w' = stdout w /\ exited w' = exited w /\
      clock_reads w' = clock_reads w
  end.
Proof.
  destruct (open_error path) as [err|] eqn:He.
  - unfold NewLogger, OpenFile. rewrite He. reflexivity.
  - apply NewLogger_succeeds, He.
Qed.

(** The colours are fixed when the logger is made: [FORCE_COLOR] switches
    them on, otherwise [NO_COLOR] switches them off, otherwise
    [color.NoColor] stays as it was; and each console prefix is the bracketed
    severity, wrapped in the escape sequence of its colour exactly when
    colours are on at that moment. *)
Theorem NewLogger_colours path w l w' :
  NewLogger path w = (inl l, w') ->
  NoColor w'
  = (if negb (Getenv "FORCE_COLOR" =? "")%string then false
     else if negb (Getenv "NO_COLOR" =? "")%string then true
     else NoColor w) /\
  forall m,
    prefix (console m l)
    = if NoColor w' then "[" +:+ name m +:+ "] "
      else String ESC "[" +:+ colorCode m +:+ "m" +:+ "[" +:+ name m +:+ "] "
             +:+ String ESC "[0m".
Proof.
  unfold NewLogger, OpenFile. destruct (open_error path) as [err|]; [discriminate|].
  intros E. injection E as El Ew. subst l w'.
  split.
  - destruct (negb (Getenv "FORCE_COLOR" =? "")%string);
      [|destruct (negb (Getenv "NO_COLOR" =? "")%string)]; reflexivity.
  - intros m.
    destruct m; simpl console; simpl prefix;
      unfold CyanString, RedString, GreenString, YellowString, MagentaString, colorString;
      match goal with |- (if ?g then _ else _) = _ => destruct g end; reflexivity.
Qed.

(** ** Settings *)

Lemma File_Write_set_NoColor f data b w :
  File_Write f data (set_NoColor b w) = set_NoColor b (File_Write f data w).
Proof.
  unfold File_Write. simpl fds.
  destruct (fds w !! f) as [fl|]; [destruct (fopen fl)|]; reflexivity.
Qed.

Lemma log_set_NoColor lvl text site l b w :
  log lvl text site l (set_NoColor b w) = set_NoColor b (log lvl text site l w).
Proof.
  unfold log. destruct (lvl <? level l); [reflexivity|].
  set (w1 := match lvl with
             | DEBUG => Println (debugLogger l) text w
             | INFO => Println (infoLogger l) text w
             | WARNING => Println (warningLogger l) text w
             | ERROR => Println (errorLogger l) text w
             | FATAL => Println (fatalLogger l) text w
             | _ => w
             end).
  assert (Hw1 : match lvl with
                | DEBUG => Println (debugLogger l) text (set_NoColor b w)
                | INFO => Println (infoLogger l) text (set_NoColor b w)
                | WARNING => Println (warningLogger l) text (set_NoColor b w)
                | ERROR => Println (errorLogger l) text (set_NoColor b w)
                | FATAL => Println (fatalLogger l) text (set_NoColor b w)
                | _ => set_NoColor b w
                end = set_NoColor b w1).
  { subst w1. destruct lvl as [|[[[]|[]|]|[[]|[]|]|]|]; reflexivity. }
  rewrite Hw1. clearbody w1. clear Hw1.
  destruct (logFile l) as [f|]; [|reflexivity].
  destruct (withCaller l); [destruct site as [[file line]|]|];
    cbv iota beta; unfold Now; cbv iota beta;
    (destruct (jsonMode l);
     [ match goal with |- context [slice ?s ?a ?c] => destruct (slice s a c) end
     | unfold Fprintln ]);
    try reflexivity;
    match goal with
    | |- File_Write ?f ?d ?x = set_NoColor b (File_Write ?f ?d' ?y) =>
      change x with (set_NoColor b y); change d with d';
      apply File_Write_set_NoColor
    end.
Qed.

Lemma emit_set_NoColor m msg v site l b w :
  emit m msg v site l (set_NoColor b w) = set_NoColor b (emit m msg v site l w).
Proof.
  destruct m; simpl; unfold Debug, Info, Warning, Error, Fatal;
    match goal with |- context [if ?g then _ else _] => destruct g end;
    try reflexivity; rewrite log_set_NoColor; reflexivity.
Qed.

(** [WithColors] changes nothing of what a logger that exists already
    prints or writes: an emission after it gives the world the emission
    alone would give, with [color.NoColor] set. *)
Theorem WithColors_leaves_existing_logger m msg v site l enable w :
  emit m msg v site l (WithColors enable w)
  = WithColors enable (emit m msg v site l w).
Proof. unfold WithColors. apply emit_set_NoColor. Qed.

Lemma app_eq_self_nil (s t : string) : s +:+ t = s -> t = "".
Proof.
  intros E. apply (f_equal String.length) in E. rewrite length_app_s in E.
  destruct t; [reflexivity|]. simpl in E. lia.
Qed.

(** After [SetLevel(T)], for every integer [T], a method does nothing at
    all exactly when its severity is below [T]. *)
Theorem SetLevel_threshold T m msg v site l w :
  emit m msg v site (SetLevel T l) w = w <-> severity m < T.
Proof.
  split.
  - intros E. destruct (Z_lt_le_dec (severity m) T) as [Hlt|Hle]; [exact Hlt|].
    exfalso.
    pose proof (emit_stdout m msg v site (SetLevel T l) w Hle) as Hout.
    rewrite E in Hout. symmetry in Hout. apply app_eq_self_nil in Hout.
    apply (f_equal String.length) in Hout. rewrite !length_app_s in Hout.
    simpl in Hout. lia.
  - intros Hlt. apply emit_filtered. exact Hlt.
Qed.

(** An emission that passes the threshold reads the clock once for the
    console and once more when the file field is not nil, and asks the run
    time for the caller only when caller reporting is on and the file field
    is not nil. *)
Theorem emit_clock_and_caller m msg v site l w :
  level l <= severity m ->
  clock_reads (emit m msg v site l w)
  = (clock_reads w + match logFile l with Some _ => 2 | None => 1 end)%nat /\
  caller_lookups (emit m msg v site l w)
  = (caller_lookups w
     + match logFile l with
       | Some _ => if withCaller l then 1 else 0
       | None => 0
       end)%nat.
Proof.
  intros Hle. rewrite (emit_passes _ _ _ _ _ _ Hle).
  destruct (log_counters m (fullMsg msg v) site l w Hle) as [Hc Hr].
  destruct m; simpl finish; split; assumption.
Qed.

Lemma emit_stdout_same m msg v site l l' w :
  level l' = level l -> console m l' = console m l ->
  stdout (emit m msg v site l' w) = stdout (emit m msg v site l w).
Proof.
  intros Hlvl Hcon. destruct (Z_lt_le_dec (severity m) (level l)) as [Hlt|Hle].
  - rewrite !emit_filtered; [reflexivity|exact Hlt|rewrite Hlvl; exact Hlt].
  - rewrite !emit_stdout; [|exact Hle|rewrite Hlvl; exact Hle].
    rewrite Hcon. reflexivity.
Qed.

(** The console line does not depend on the file options: it is the same
    after [WithCaller], [WithJSON] and [WithTimeFormat] as before. *)
Theorem console_ignores_file_options m msg v site l w enable layout :
  stdout (emit m msg v site (WithCaller enable l) w) = stdout (emit m msg v site l w) /\
  stdout (emit m msg v site (WithJSON l) w) = stdout (emit m msg v site l w) /\
  stdout (emit m msg v site (WithTimeFormat layout l) w) = stdout (emit m msg v site l w).
Proof.
  split; [|split]; apply emit_stdout_same; try (destruct m; reflexivity); try reflexivity.
  - unfold WithTimeFormat. destruct (negb (layout =? "")%string); reflexivity.
  - unfold WithTimeFormat. destruct (negb (layout =? "")%string); destruct m; reflexivity.
Qed.

Lemma File_Write_files_congr f data w1 w2 :
  fds w1 = fds w2 -> files w1 = files w2 ->
  files (File_Write f data w1) = files (File_Write f data w2).
Proof.
  intros Hfds Hfiles. unfold File_Write. rewrite Hfds.
  destruct (fds w2 !! f) as [fl|]; [destruct (fopen fl)|]; simpl; rewrite ?Hfiles; reflexivity.
Qed.

(** What reaches the files does not depend on the console prefixes or on
    [color.NoColor]: two loggers that agree on the file field, the
    threshold, the time format, caller reporting and the mode write the
    same. *)
Theorem files_ignore_console_settings m msg v site l l' b w :
  logFile l' = logFile l -> level l' = level l -> timeFormat l' = timeFormat l ->
  withCaller l' = withCaller l -> jsonMode l' = jsonMode l ->
  files (emit m msg v site l' (set_NoColor b w)) = files (emit m msg v site l w).
Proof.
  intros Hf Hlvl Ht Hc Hj.
  rewrite emit_set_NoColor.
  change (files (emit m msg v site l' w) = files (emit m msg v site l w)).
  destruct (Z_lt_le_dec (severity m) (level l)) as [Hlt|Hle].
  - rewrite !emit_filtered; [reflexivity|exact Hlt|rewrite Hlvl; exact Hlt].
  - rewrite !emit_passes; [|exact Hle|rewrite Hlvl; exact Hle].
    rewrite !finish_files, !log_passes; [|exact Hle|rewrite Hlvl; exact Hle].
    cbv zeta. rewrite Hf. destruct (logFile l) as [f|]; [|reflexivity].
    assert (Hrec : forall now, file_record l' m (fullMsg msg v) site now
                               = file_record l m (fullMsg msg v) site now).
    { intros now. unfold file_record, callerText. rewrite Ht, Hc, Hj. reflexivity. }
    rewrite Hc, Hrec.
    destruct (withCaller l); apply File_Write_files_congr; reflexivity.
Qed.

(** ** Programs: what holds after any sequence of calls *)

Lemma call_jsonMode c l w :
  jsonMode l = true -> jsonMode (fst (call c (l, w))) = true.
Proof.
  intros Hj. destruct c; simpl; try exact Hj; try reflexivity.
  - unfold WithTimeFormat. destruct (negb (layout =? "")%string); exact Hj.
  - unfold DisableFile. destruct (logFile l) as [f|]; [|exact Hj].
    destruct (File_Close f w). exact Hj.
  - unfold EnableFile.
    destruct (OpenFile path _) as [[f|err] w']; exact Hj.
Qed.

Lemma run_jsonMode cs : forall l w,
  jsonMode l = true -> jsonMode (fst (run cs (l, w))) = true.
Proof.
  induction cs as [|c cs IH]; intros l w Hj; [exact Hj|].
  rewrite run_cons. destruct (exited w); [exact Hj|].
  pose proof (call_jsonMode c l w Hj) as Hj'.
  destruct (call c (l, w)) as [l' w']. apply IH. exact Hj'.
Qed.

(** JSON mode is a one-way switch: once [WithJSON] has been called, no
    sequence of calls of the interface brings the logger back to plain
    text. *)
Theorem WithJSON_is_one_way cs l w :
  jsonMode (fst (run cs (WithJSON l, w))) = true.
Proof. apply run_jsonMode. reflexivity. Qed.

Lemma extends_refl m : extends m m.
Proof. intros p c Hp. exists "". rewrite app_nil_r_s. exact Hp. Qed.

Lemma extends_trans m1 m2 m3 : extends m1 m2 -> extends m2 m3 -> extends m1 m3.
Proof.
  intros H12 H23 p c Hp.
  destruct (H12 p c Hp) as [d Hd]. destruct (H23 p _ Hd) as [d' Hd'].
  exists (d +:+ d'). rewrite <- app_assoc_s. exact Hd'.
Qed.

Lemma extends_append (m : gmap string string) p d :
  extends m (<[p := default "" (m !! p) +:+ d]> m).
Proof.
  intros q c Hq. destruct (decide (p = q)) as [->|Hne].
  - rewrite lookup_insert_eq, Hq. exists d. reflexivity.
  - rewrite lookup_insert_ne by exact Hne. exists "". rewrite app_nil_r_s. exact Hq.
Qed.

Lemma File_Write_extends f data w : extends (files w) (files (File_Write f data w)).
Proof.
  unfold File_Write. destruct (fds w !! f) as [fl|]; [destruct (fopen fl)|];
    try apply extends_refl.
  apply extends_append.
Qed.

Lemma emit_extends m msg v site l w : extends (files w) (files (emit m msg v site l w)).
Proof.
  destruct (Z_lt_le_dec (severity m) (level l)) as [Hlt|Hle].
  - rewrite emit_filtered by exact Hlt. apply extends_refl.
  - rewrite (emit_passes _ _ _ _ _ _ Hle), finish_files, (log_passes _ _ _ _ _ Hle).
    cbv zeta. destruct (logFile l) as [f|]; [|apply extends_refl].
    match goal with
    | |- extends _ (files (File_Write ?g ?d ?x)) =>
      change (files w) with (files x) at 1
      || (replace (files w) with (files x) by (destruct (withCaller l); reflexivity));
      apply File_Write_extends
    end.
Qed.

Lemma emit_stdout_grows m msg v site l w :
  exists d, stdout (emit m msg v site l w) = stdout w +:+ d.
Proof.
  destruct (Z_lt_le_dec (severity m) (level l)) as [Hlt|Hle].
  - rewrite emit_filtered by exact Hlt. exists "". rewrite app_nil_r_s. reflexivity.
  - rewrite (emit_stdout _ _ _ _ _ _ Hle). eexists. reflexivity.
Qed.

Lemma OpenFile_extends path w :
  extends (files w) (files (snd (OpenFile path w))) /\
  stdout (snd (OpenFile path w)) = stdout w.
Proof.
  unfold OpenFile. destruct (open_error path); simpl; split; try reflexivity;
    try apply extends_refl.
  intros q c Hq. destruct (decide (path = q)) as [->|Hne].
  - rewrite lookup_insert_eq, Hq. exists "". rewrite app_nil_r_s. reflexivity.
  - rewrite lookup_insert_ne by exact Hne. exists "". rewrite app_nil_r_s. exact Hq.
Qed.

Lemma EnableFile_world path l w :
  snd (snd (EnableFile path l w))
  = snd (OpenFile path
           match logFile l with Some f => snd (File_Close f w) | None => w end).
Proof.
  unfold EnableFile. destruct (OpenFile path _) as [[f|err] w']; reflexivity.
Qed.

Lemma call_extends c l w :
  extends (files w) (files (snd (call c (l, w)))) /\
  exists d, stdout (snd (call c (l, w))) = stdout w +:+ d.
Proof.
  assert (Hsame : forall w', files w' = files w -> stdout w' = stdout w ->
            extends (files w) (files w') /\ exists d, stdout w' = stdout w +:+ d).
  { intros w' -> ->. split; [apply extends_refl|].
    exists "". rewrite app_nil_r_s. reflexivity. }
  destruct c; simpl; try (apply Hsame; reflexivity).
  - split; [apply emit_extends|apply emit_stdout_grows].
  - apply Hsame; [apply DisableFile_files|apply DisableFile_stdout].
  - rewrite EnableFile_world.
    set (w1 := match logFile l with Some f => snd (File_Close f w) | None => w end).
    assert (H1 : files w1 = files w /\ stdout w1 = stdout w).
    { subst w1. destruct (logFile l) as [f|];
        [split; [apply File_Close_files|apply File_Close_stdout]|split; reflexivity]. }
    destruct H1 as [Hf Ho]. destruct (OpenFile_extends path w1) as [He Hs].
    rewrite Hf in He. rewrite Hs, Ho. split; [exact He|].
    exists "". rewrite app_nil_r_s. reflexivity.
  - unfold Close. destruct (logFile l) as [f|]; [|apply Hsame; reflexivity].
    apply Hsame; [apply File_Close_files|apply File_Close_stdout].
Qed.

(** The logger only ever appends: after any sequence of calls every file
    that existed still exists and starts with the content it had, and
    standard output starts with what had been printed. *)
Theorem logger_only_appends cs l w :
  extends (files w) (files (snd (run cs (l, w)))) /\
  exists d, stdout (snd (run cs (l, w))) = stdout w +:+ d.
Proof.
  revert l w. induction cs as [|c cs IH]; intros l w.
  - split; [apply extends_refl|]. exists "". rewrite app_nil_r_s. reflexivity.
  - rewrite run_cons. destruct (exited w).
    { split; [apply extends_refl|]. exists "". rewrite app_nil_r_s. reflexivity. }
    destruct (call_extends c l w) as [He [d Hd]].
    destruct (call c (l, w)) as [l' w']. simpl in He, Hd.
    destruct (IH l' w') as [He' [d' Hd']].
    split; [exact (extends_trans _ _ _ He He')|].
    exists (d +:+ d'). rewrite Hd', Hd. apply app_assoc_s.
Qed.

Lemma File_Close_lookup_open f g fl w :
  fds (snd (File_Close f w)) !! g = Some fl -> fopen fl = true ->
  g <> f /\ fds w !! g = Some fl.
Proof.
  unfold File_Close. destruct (fds w !! f) as [fl0|] eqn:Hf.
  - destruct (fopen fl0) eqn:Ho0; simpl; intros Hg Ho.
    + destruct (decide (g = f)) as [->|Hne].
      * rewrite list_lookup_insert_eq in Hg by (apply lookup_lt_Some in Hf; exact Hf).
        inversion Hg; subst. discriminate Ho.
      * rewrite list_lookup_insert_ne in Hg by congruence. split; assumption.
    + split; [|exact Hg]. intros ->. rewrite Hf in Hg. inversion Hg; subst. congruence.
  - simpl. intros Hg Ho. split; [|exact Hg]. intros ->. congruence.
Qed.

Lemma close_field_none_open l w :
  no_stray_open l w ->
  forall g fl,
    fds (match logFile l with Some f => snd (File_Close f w) | None => w end) !! g = Some fl ->
    fopen fl = true -> False.
Proof.
  intros Hinv g fl Hg Ho. destruct (logFile l) as [f|] eqn:Hf.
  - destruct (File_Close_lookup_open f g fl w Hg Ho) as [Hne Hg'].
    specialize (Hinv g fl Hg' Ho). congruence.
  - specialize (Hinv g fl Hg Ho). congruence.
Qed.

Lemma call_no_stray_open c l w :
  no_stray_open l w ->
  no_stray_open (fst (call c (l, w))) (snd (call c (l, w))).
Proof.
  intros Hinv. destruct c; simpl; try exact Hinv.
  - intros g fl Hg Ho. rewrite emit_fds in Hg. exact (Hinv g fl Hg Ho).
  - intros g fl Hg Ho. rewrite WithTimeFormat_logFile. exact (Hinv g fl Hg Ho).
  - intros g fl Hg Ho. exfalso.
    apply (close_field_none_open l w Hinv g fl); [|exact Ho].
    unfold DisableFile in Hg. destruct (logFile l) as [f|]; [|exact Hg].
    destruct (File_Close f w) as [r w']. exact Hg.
  - pose proof (close_field_none_open l w Hinv) as Hnone.
    unfold EnableFile.
    set (w1 := match logFile l with Some f => snd (File_Close f w) | None => w end) in *.
    unfold OpenFile. destruct (open_error path) as [err|]; simpl.
    + intros g fl Hg Ho. exfalso. exact (Hnone g fl Hg Ho).
    + intros g fl Hg Ho. simpl fds in Hg. simpl logFile.
      destruct (decide (g < length (fds w1))%nat) as [Hlt|Hge].
      * rewrite lookup_app_l in Hg by exact Hlt. exfalso. exact (Hnone g fl Hg Ho).
      * rewrite lookup_app_r in Hg by lia.
        destruct (g - length (fds w1))%nat as [|k] eqn:Hk; [|discriminate Hg].
        f_equal. lia.
  - intros g fl Hg Ho. exfalso.
    apply (close_field_none_open l w Hinv g fl); [|exact Ho].
    unfold Close in Hg. destruct (logFile l) as [f|]; exact Hg.
Qed.

(** No file object is leaked: if every open file object is the one in the
    logger's field, this is still so after any sequence of calls, so that at
    most one file object is open at any time. *)
Theorem no_file_object_is_leaked cs l w :
  no_stray_open l w ->
  no_stray_open (fst (run cs (l, w))) (snd (run cs (l, w))) /\
  forall f g flf flg,
    fds (snd (run cs (l, w))) !! f = Some flf -> fopen flf = true ->
    fds (snd (run cs (l, w))) !! g = Some flg -> fopen flg = true ->
    f = g.
Proof.
  intros Hinv.
  assert (Hrun : no_stray_open (fst (run cs (l, w))) (snd (run cs (l, w)))).
  { revert l w Hinv. induction cs as [|c cs IH]; intros l w Hinv; [exact Hinv|].
    rewrite run_cons. destruct (exited w); [exact Hinv|].
    pose proof (call_no_stray_open c l w Hinv) as Hinv'.
    destruct (call c (l, w)) as [l' w']. apply IH. exact Hinv'. }
  split; [exact Hrun|].
  intros f g flf flg Hf Hof Hg Hog.
  pose proof (Hrun f flf Hf Hof) as E1. pose proof (Hrun g flg Hg Hog) as E2.
  congruence.
Qed.

Lemma emit_exited_unless_Fatal m msg v site l w :
  m <> MFatal -> exited (emit m msg v site l w) = exited w.
Proof.
  intros Hm. destruct (Z_lt_le_dec (severity m) (level l)) as [Hlt|Hle].
  - rewrite emit_filtered by exact Hlt. reflexivity.
  - rewrite (emit_passes _ _ _ _ _ _ Hle).
    assert (Hfin : forall x, finish m x = x) by (intros x; destruct m; try reflexivity; congruence).
    rewrite Hfin. apply log_exited. exact Hle.
Qed.

Lemma call_exited c l w :
  is_Fatal c = false -> exited (snd (call c (l, w))) = exited w.
Proof.
  intros Hc. destruct c; simpl; try reflexivity.
  - apply emit_exited_unless_Fatal. intros ->. discriminate Hc.
  - unfold DisableFile. destruct (logFile l) as [f|]; [|reflexivity].
    pose proof (File_Close_exited f w). destruct (File_Close f w). assumption.
  - rewrite EnableFile_world. unfold OpenFile.
    destruct (open_error path); simpl;
      (destruct (logFile l) as [f|]; [apply File_Close_exited|reflexivity]).
  - unfold Close. destruct (logFile l) as [f|]; [apply File_Close_exited|reflexivity].
Qed.

(** Only [Fatal] ends the process: a sequence of calls without [Fatal]
    leaves the exit status as it was, whatever the messages, the mode and
    the state of the file (no call panics). *)
Theorem only_Fatal_ends_the_process cs l w :
  no_Fatal cs = true -> exited (snd (run cs (l, w))) = exited w.
Proof.
  revert l w. induction cs as [|c cs IH]; intros l w Hcs; [reflexivity|].
  rewrite run_cons. destruct (exited w) eqn:He; [exact He|].
  apply andb_true_iff in Hcs as [Hc Hcs]. fold (no_Fatal cs) in Hcs.
  apply negb_true_iff in Hc.
  pose proof (call_exited c l w Hc) as Hex.
  destruct (call c (l, w)) as [l' w']. simpl in Hex.
  rewrite (IH l' w' Hcs), Hex. exact He.
Qed.

(** ** Switching and closing the file, and records in sequence *)

Lemma EnableFile_succeeds_world path l w :
  open_error path = None ->
  exists f w',
    EnableFile path l w = (None, (set_logFile (Some f) l, w')) /\
    fds w' !! f = Some {| fname := path; fopen := true |} /\
    files w' = <[path := default "" (files w !! path)]> (files w) /\
    clock_reads w' = clock_reads w /\ stdout w' = stdout w.
Proof.
  intros He. unfold EnableFile.
  set (w1 := match logFile l with Some f => snd (File_Close f w) | None => w end).
  assert (H1 : files w1 = files w /\ clock_reads w1 = clock_reads w /\ stdout w1 = stdout w).
  { subst w1. destruct (logFile l) as [f|]; [|repeat split].
    split; [apply File_Close_files|].
    split; [apply File_Close_clock_reads|apply File_Close_stdout]. }
  destruct H1 as (Hf & Hc & Ho).
  unfold OpenFile. rewrite He.
  eexists _, _. split; [reflexivity|]. simpl.
  split; [|rewrite Hf; repeat split; assumption].
  rewrite lookup_app_r by lia.
  replace (length (fds w1) - length (fds w1))%nat with 0%nat by lia. reflexivity.
Qed.

(** After an [EnableFile] that succeeds, the record of an emission goes to
    the new path, behind what that file held, and every other file, the one
    of the previous sink among them, is as it was before the switch. *)
Theorem EnableFile_switches_the_file path l w m msg v site :
  open_error path = None ->
  level l <= severity m ->
  let r := EnableFile path l w in
  fst r = None /\
  files (emit m msg v site (fst (snd r)) (snd (snd r)))
  = <[path := default "" (files w !! path)
        +:+ file_record l m (fullMsg msg v) site (clock (S (clock_reads w)))]> (files w).
Proof.
  intros He Hle r. subst r.
  destruct (EnableFile_succeeds_world path l w He) as (f & w' & E & Hfd & Hfiles & Hclock & _).
  rewrite E. simpl fst. simpl snd. split; [reflexivity|].
  rewrite (emit_files_active m msg v site (set_logFile (Some f) l) w' f
             {| fname := path; fopen := true |} Hle eq_refl Hfd eq_refl).
  simpl fname. rewrite Hfiles, Hclock, lookup_insert_eq, insert_insert_eq.
  reflexivity.
Qed.

(** Using the logger after [Close]: as long as [EnableFile] is not called,
    no call changes any file, an emission that passes the threshold still
    prints its console line, and no emission but [Fatal] ends the process. *)
Theorem emissions_after_Close_reach_the_console_only l w cs :
  no_EnableFile cs = true ->
  let s := run cs (l, snd (Close l w)) in
  files (snd s) = files w /\
  forall m msg v site,
    files (emit m msg v site (fst s) (snd s)) = files w /\
    (level (fst s) <= severity m ->
     stdout (emit m msg v site (fst s) (snd s))
     = stdout (snd s) +:+ prefix (console m (fst s))
         +:+ Format "15:04:05" (clock (clock_reads (snd s)))
         +:+ " " +:+ fullMsg msg v +:+ byte LF) /\
    (m <> MFatal -> exited (emit m msg v site (fst s) (snd s)) = exited (snd s)).
Proof.
  intros Hcs s.
  assert (Hin : active_sink l (snd (Close l w)) = false).
  { unfold Close, active_sink. destruct (logFile l) as [f|]; [|reflexivity].
    apply File_Close_closed. }
  assert (Hfiles : files (snd (Close l w)) = files w).
  { unfold Close. destruct (logFile l) as [f|]; [apply File_Close_files|reflexivity]. }
  destruct (run_inactive cs l (snd (Close l w)) Hcs Hin) as [E1 E2]. fold s in E1, E2.
  split; [rewrite E1; exact Hfiles|].
  intros m msg v site. split; [|split].
  - rewrite (emit_files_inactive _ _ _ _ _ _ E2), E1. exact Hfiles.
  - intros Hle. apply emit_stdout, Hle.
  - intros Hm. apply emit_exited_unless_Fatal, Hm.
Qed.

Lemma finish_unless_Fatal m w : m <> MFatal -> finish m w = w.
Proof. intros Hm. destruct m; try reflexivity. congruence. Qed.

(** Two emissions one after the other, both passing the threshold, with an
    open file: the file gains the record of the first and then the record
    of the second, the console the line of the first and then the line of
    the second, and the four time stamps are four successive readings of
    the clock, console and file in turn. *)
Theorem two_emissions_in_order m1 msg1 v1 site1 m2 msg2 v2 site2 l w f fl :
  m1 <> MFatal ->
  level l <= severity m1 -> level l <= severity m2 ->
  logFile l = Some f -> fds w !! f = Some fl -> fopen fl = true ->
  let n := clock_reads w in
  let w2 := emit m2 msg2 v2 site2 l (emit m1 msg1 v1 site1 l w) in
  files w2
  = <[fname fl := default "" (files w !! fname fl)
        +:+ file_record l m1 (fullMsg msg1 v1) site1 (clock (n + 1)%nat)
        +:+ file_record l m2 (fullMsg msg2 v2) site2 (clock (n + 3)%nat)]> (files w) /\
  stdout w2
  = stdout w
    +:+ (prefix (console m1 l) +:+ Format "15:04:05" (clock n)
           +:+ " " +:+ fullMsg msg1 v1 +:+ byte LF)
    +:+ (prefix (console m2 l) +:+ Format "15:04:05" (clock (n + 2)%nat)
           +:+ " " +:+ fullMsg msg2 v2 +:+ byte LF).
Proof.
  intros Hm1 H1 H2 Hf Hfl Ho n w2. subst w2 n.
  set (w1 := emit m1 msg1 v1 site1 l w).
  assert (Hfds : fds w1 !! f = Some fl) by (subst w1; rewrite emit_fds; exact Hfl).
  assert (Hclock : clock_reads w1 = (clock_reads w + 2)%nat).
  { subst w1. rewrite (emit_passes _ _ _ _ _ _ H1), (finish_unless_Fatal _ _ Hm1).
    destruct (log_counters m1 (fullMsg msg1 v1) site1 l w H1) as [Hc _].
    rewrite Hf in Hc. exact Hc. }
  assert (Hfiles : files w1
            = <[fname fl := default "" (files w !! fname fl)
                  +:+ file_record l m1 (fullMsg msg1 v1) site1 (clock (clock_reads w + 1)%nat)]>
                (files w)).
  { subst w1. rewrite (emit_files_active m1 msg1 v1 site1 l w f fl H1 Hf Hfl Ho).
    replace (S (clock_reads w)) with (clock_reads w + 1)%nat by lia. reflexivity. }
  assert (Hout : stdout w1
            = stdout w +:+ prefix (console m1 l) +:+ Format "15:04:05" (clock (clock_reads w))
                +:+ " " +:+ fullMsg msg1 v1 +:+ byte LF).
  { subst w1. apply emit_stdout, H1. }
  split.
  - rewrite (emit_files_active m2 msg2 v2 site2 l w1 f fl H2 Hf Hfds Ho).
    rewrite Hfiles, Hclock, lookup_insert_eq, insert_insert_eq. simpl default.
    replace (S (clock_reads w + 2)) with (clock_reads w + 3)%nat by lia.
    rewrite app_assoc_s. reflexivity.
  - rewrite (emit_stdout m2 msg2 v2 site2 l w1 H2), Hout, Hclock.
    rewrite !app_assoc_s. reflexivity.
Qed.

(** ** The example program *)

(** One emission that passes the threshold, is not [Fatal], and finds an
    open file. *)
Lemma emit_step m msg v site l w f fl :
  m <> MFatal -> level l <= severity m ->
  logFile l = Some f -> fds w !! f = Some fl -> fopen fl = true ->
  fds (emit m msg v site l w) = fds w /\
  clock_reads (emit m msg v site l w) = (clock_reads w + 2)%nat /\
  exited (emit m msg v site l w) = exited w /\
  stdout (emit m msg v site l w)
  = stdout w +:+ prefix (console m l) +:+ Format "15:04:05" (clock (clock_reads w))
      +:+ " " +:+ fullMsg msg v +:+ byte LF /\
  files (emit m msg v site l w)
  = <[fname fl := default "" (files w !! fname fl)
        +:+ file_record l m (fullMsg msg v) site (clock (clock_reads w + 1)%nat)]> (files w).
Proof.
  intros Hm Hle Hf Hfl Ho.
  split; [apply emit_fds|].
  split.
  { rewrite (emit_passes _ _ _ _ _ _ Hle), (finish_unless_Fatal _ _ Hm).
    destruct (log_counters m (fullMsg msg v) site l w Hle) as [Hc _].
    rewrite Hf in Hc. exact Hc. }
  split; [apply emit_exited_unless_Fatal, Hm|].
  split; [apply emit_stdout, Hle|].
  rewrite (emit_files_active m msg v site l w f fl Hle Hf Hfl Ho).
  replace (S (clock_reads w)) with (clock_reads w + 1)%nat by lia. reflexivity.
Qed.

Lemma file_record_plain l m text site now :
  jsonMode l = false -> withCaller l = false ->
  file_record l m text site now
  = Format (timeFormat l) now +:+ " [" +:+ name m +:+ "] " +:+ text +:+ byte LF.
Proof.
  intros Hj Hc. unfold file_record, callerText. rewrite Hj, Hc.
  simpl String.eqb. cbv iota. rewrite !app_assoc_s, app_nil_l_s. reflexivity.
Qed.

(** [examples/basic/main.go].  When [app.log] cannot be opened the program
    writes the error to standard error and exits with status 1, with
    nothing printed and no file touched.  Otherwise it returns normally,
    having printed the three console lines and appended the three
    plain-text records to [app.log] in the order of the calls, behind what
    the file held, time stamps alternating between console and file; and
    the deferred [Close] leaves the file object it opened closed. *)
Theorem main_logs_three_records_and_closes src w :
  match open_error "app.log" with
  | Some err =>
    main src w
    = (Format "2006/01/02 15:04:05" (clock (clock_reads w)) +:+ " " +:+ err +:+ byte LF,
       os_Exit 1 (tick_clock w))
  | None =>
    exists l w0,
      NewLogger "app.log" w = (inl l, w0) /\
      let n := clock_reads w in
      let hello := Sprintf "Hello from YagaLog %d" [VInt 1] in
      let oops := Sprintf "Oops: %s" [VString "something went wrong"] in
      let stamp k := Format "2006-01-02 15:04:05" (clock (n + k)%nat) in
      let time k := Format "15:04:05" (clock (n + k)%nat) in
      fst (main src w) = "" /\
      exited (snd (main src w)) = exited w /\
      stdout (snd (main src w))
      = stdout w
        +:+ (prefix (infoLogger l) +:+ time 0%nat +:+ " " +:+ hello +:+ byte LF)
        +:+ (prefix (warningLogger l) +:+ time 2%nat +:+ " " +:+ "Be careful" +:+ byte LF)
        +:+ (prefix (errorLogger l) +:+ time 4%nat +:+ " " +:+ oops +:+ byte LF) /\
      files (snd (main src w))
      = <["app.log" := default "" (files w !! "app.log")
            +:+ (stamp 1%nat +:+ " [INFO] " +:+ hello +:+ byte LF)
            +:+ (stamp 3%nat +:+ " [WARNING] " +:+ "Be careful" +:+ byte LF)
            +:+ (stamp 5%nat +:+ " [ERROR] " +:+ oops +:+ byte LF)]> (files w) /\
      fds (snd (main src w)) = fds w ++ [{| fname := "app.log"; fopen := false |}]
  end.
Proof.
  destruct (open_error "app.log") as [err|] eqn:He.
  { unfold main, NewLogger, OpenFile. rewrite He. reflexivity. }
  destruct (NewLogger_succeeds "app.log" w He)
    as (l & w0 & E & Hlvl & Htf & Hc & Hj & Hf & Hfds & Hfiles & Hout & Hex & Hclk).
  exists l, w0. split; [exact E|]. cbv zeta.
  unfold main. rewrite E.
  set (fl := {| fname := "app.log"; fopen := true |}).
  assert (Hfl0 : fds w0 !! length (fds w) = Some fl).
  { rewrite Hfds, lookup_app_r by lia.
    replace (length (fds w) - length (fds w))%nat with 0%nat by lia. reflexivity. }
  assert (Hpass : forall m, level l <= severity m)
    by (intros m; rewrite Hlvl; destruct m; simpl; lia).
  change (Info ?a ?b ?c l w0) with (emit MInfo a b c l w0).
  set (w1 := emit MInfo _ _ _ l w0).
  change (Warning ?a ?b ?c l w1) with (emit MWarning a b c l w1).
  set (w2 := emit MWarning _ _ _ l w1).
  change (Error ?a ?b ?c l w2) with (emit MError a b c l w2).
  set (w3 := emit MError _ _ _ l w2).
  destruct (emit_step MInfo "Hello from YagaLog %d" [VInt 1] (Some (src, 13)) l w0
              (length (fds w)) fl ltac:(discriminate) (Hpass _) Hf Hfl0 eq_refl)
    as (F1 & C1 & X1 & O1 & W1). fold w1 in F1, C1, X1, O1, W1.
  assert (Hfl1 : fds w1 !! length (fds w) = Some fl) by (rewrite F1; exact Hfl0).
  destruct (emit_step MWarning "Be careful" [] (Some (src, 14)) l w1
              (length (fds w)) fl ltac:(discriminate) (Hpass _) Hf Hfl1 eq_refl)
    as (F2 & C2 & X2 & O2 & W2). fold w2 in F2, C2, X2, O2, W2.
  assert (Hfl2 : fds w2 !! length (fds w) = Some fl) by (rewrite F2; exact Hfl1).
  destruct (emit_step MError "Oops: %s" [VString "something went wrong"] (Some (src, 15))
              l w2 (length (fds w)) fl ltac:(discriminate) (Hpass _) Hf Hfl2 eq_refl)
    as (F3 & C3 & X3 & O3 & W3). fold w3 in F3, C3, X3, O3, W3.
  assert (Hfl3 : fds w3 !! length (fds w) = Some fl) by (rewrite F3; exact Hfl2).
  assert (Hclose : snd (Close l w3)
            = set_fds (fun fs => <[length (fds w) := {| fname := "app.log"; fopen := false |}]> fs) w3).
  { unfold Close. rewrite Hf, (File_Close_open _ fl w3 Hfl3 eq_refl). reflexivity. }
  simpl fst. simpl snd. rewrite Hclose.
  split; [reflexivity|].
  split; [simpl exited; rewrite X3, X2, X1; exact Hex|].
  split.
  - simpl stdout. rewrite O3, O2, O1, C2, C1, Hout, Hclk.
    simpl console. change (fullMsg "Be careful" []) with "Be careful".
    change (fullMsg "Hello from YagaLog %d" [VInt 1])
      with (Sprintf "Hello from YagaLog %d" [VInt 1]).
    change (fullMsg "Oops: %s" [VString "something went wrong"])
      with (Sprintf "Oops: %s" [VString "something went wrong"]).
    replace (clock_reads w + 2 + 2)%nat with (clock_reads w + 4)%nat by lia.
    replace (clock_reads w + 0)%nat with (clock_reads w) by lia.
    rewrite !app_assoc_s. reflexivity.
  - split.
    + simpl files. rewrite W3, W2, W1, C2, C1, Hfiles, Hclk.
      simpl fname. rewrite !file_record_plain by assumption. rewrite Htf.
      rewrite lookup_insert_eq, insert_insert_eq. simpl default.
      rewrite lookup_insert_eq, insert_insert_eq. simpl default.
      rewrite lookup_insert_eq, insert_insert_eq. simpl default.
      simpl name.
      change (fullMsg "Be careful" []) with "Be careful".
      change (fullMsg "Hello from YagaLog %d" [VInt 1])
        with (Sprintf "Hello from YagaLog %d" [VInt 1]).
      change (fullMsg "Oops: %s" [VString "something went wrong"])
        with (Sprintf "Oops: %s" [VString "something went wrong"]).
      replace (clock_reads w + 2 + 1)%nat with (clock_reads w + 3)%nat by lia.
      replace (clock_reads w + 2 + 2 + 1)%nat with (clock_reads w + 5)%nat by lia.
      f_equal. unfold byte. str_norm. reflexivity.
    + simpl fds. rewrite F3, F2, F1, Hfds.
      replace (length (fds w)) with (length (fds w) + 0)%nat at 1 by lia.
      rewrite insert_app_r. reflexivity.
Qed.

End ClientFacts.

(** ** These theorems at concrete calls *)

Example NewLogger_with_colours :
  NewLogger "app.log" (set_NoColor false Host.start)
  = (inl colour_logger, set_NoColor false app_world).
Proof. vm_compute. reflexivity. Qed.

Lemma NewLogger_colours_witness :
  NewLogger "app.log" (set_NoColor false Host.start)
  = (inl colour_logger, set_NoColor false app_world) /\
  prefix (console MError colour_logger)
  = String ESC "[" +:+ "31" +:+ "m" +:+ "[" +:+ "ERROR" +:+ "] " +:+ String ESC "[0m".
Proof.
  split; [exact NewLogger_with_colours|].
  destruct (NewLogger_colours "app.log" (set_NoColor false Host.start)
              colour_logger (set_NoColor false app_world) NewLogger_with_colours)
    as [_ Hp].
  exact (Hp MError).
Defined.

Lemma emit_clock_and_caller_witness :
  level (WithCaller true app_logger) <= severity MError /\
  clock_reads (emit MError "Oops: %s" [VString "x"] (Some ("/src/main.go", 15))
                 (WithCaller true app_logger) app_world) = 2%nat /\
  caller_lookups (emit MError "Oops: %s" [VString "x"] (Some ("/src/main.go", 15))
                    (WithCaller true app_logger) app_world) = 1%nat.
Proof.
  assert (Hle : level (WithCaller true app_logger) <= severity MError) by (simpl; lia).
  split; [exact Hle|].
  exact (emit_clock_and_caller MError "Oops: %s" [VString "x"] (Some ("/src/main.go", 15))
           (WithCaller true app_logger) app_world Hle).
Defined.

Lemma files_ignore_console_settings_witness :
  files (emit MInfo "Ready!" [] None colour_logger (set_NoColor false app_world))
  = files (emit MInfo "Ready!" [] None app_logger app_world).
Proof.
  apply (files_ignore_console_settings MInfo "Ready!" [] None app_logger colour_logger
           false app_world); reflexivity.
Defined.

Lemma app_logger_no_stray_open : no_stray_open app_logger app_world.
Proof.
  intros f fl Hf Ho. destruct f as [|f]; [reflexivity|]. simpl in Hf. discriminate Hf.
Defined.

Lemma no_file_object_is_leaked_witness :
  no_stray_open app_logger app_world /\
  no_stray_open
    (fst (run [CEnableFile "other.log"; CEmit MInfo "Ready!" [] None;
               CEnableFile "/nonexistent/x.log"; CEnableFile "app.log"; CClose]
              (app_logger, app_world)))
    (snd (run [CEnableFile "other.log"; CEmit MInfo "Ready!" [] None;
               CEnableFile "/nonexistent/x.log"; CEnableFile "app.log"; CClose]
              (app_logger, app_world))).
Proof.
  split; [exact app_logger_no_stray_open|].
  apply (no_file_object_is_leaked _ app_logger app_world app_logger_no_stray_open).
Defined.

Lemma only_Fatal_ends_the_process_witness :
  no_Fatal [CWithJSON; CEmit MError "Oops" [] None; CClose; CEmit MDebug "x" [] None] = true /\
  exited (snd (run [CWithJSON; CEmit MError "Oops" [] None; CClose; CEmit MDebug "x" [] None]
                   (app_logger, app_world))) = None.
Proof.
  split; [reflexivity|].
  apply (only_Fatal_ends_the_process _ app_logger app_world). reflexivity.
Defined.

Lemma EnableFile_switches_the_file_witness :
  open_error "other.log" = None /\
  level app_logger <= severity MInfo /\
  files (emit MInfo "Ready!" [] None
           (fst (snd (EnableFile "other.log" app_logger app_world)))
           (snd (snd (EnableFile "other.log" app_logger app_world))))
  = <["other.log" := "2025-10-30 12:00:01 [INFO] Ready!" +:+ byte LF]> (files app_world).
Proof.
  assert (Ho : open_error "other.log" = None) by reflexivity.
  assert (Hle : level app_logger <= severity MInfo) by (simpl; lia).
  split; [exact Ho|]. split; [exact Hle|].
  destruct (EnableFile_switches_the_file "other.log" app_logger app_world
              MInfo "Ready!" [] None Ho Hle) as [_ E].
  rewrite E. vm_compute. reflexivity.
Defined.

Lemma emissions_after_Close_reach_the_console_only_witness :
  no_EnableFile [CEmit MInfo "late" [] None; CDisableFile] = true /\
  files (snd (run [CEmit MInfo "late" [] None; CDisableFile]
                  (app_logger, snd (Close app_logger app_world))))
  = files app_world.
Proof.
  split; [reflexivity|].
  apply (emissions_after_Close_reach_the_console_only app_logger app_world
           [CEmit MInfo "late" [] None; CDisableFile]).
  reflexivity.
Defined.

Lemma two_emissions_in_order_witness :
  files (emit MError "second" [] None app_logger
           (emit MInfo "first" [] None app_logger app_world)) !! "app.log"
  = Some ("2025-10-30 12:00:01 [INFO] first" +:+ byte LF
          +:+ "2025-10-30 12:00:03 [ERROR] second" +:+ byte LF).
Proof.
  assert (Hm : MInfo <> MFatal) by discriminate.
  assert (H1 : level app_logger <= severity MInfo) by (simpl; lia).
  assert (H2 : level app_logger <= severity MError) by (simpl; lia).
  destruct (two_emissions_in_order MInfo "first" [] None MError "second" [] None
              app_logger app_world 0%nat app_file Hm H1 H2 eq_refl eq_refl eq_refl)
    as [E _].
  rewrite E. vm_compute. reflexivity.
Defined.
